(** * glt-timer: a shared stage countdown

    A shallow embedding of the countdown logic of the stage timer:
    the operator console (admin page, [src/unnamed/part_001], of which
    [src/unnamed/part_000] is an earlier revision with the same four
    control actions and the same projector) and the passive display
    ([src/app/display/page.tsx]).

    Conventions of the embedding.
    - A JavaScript [number] that holds a count of seconds, minutes or
      milliseconds is an exact integer of [Z]; the one place where the
      source leaves the integers, the quotient handed to [Math.floor] or
      [Math.round], is a rational of [Q].  The embedding is exact below
      2^53, where the doubles of the source are.
    - [start_time] is an ISO-8601 string or [null] in the source.  The
      source only ever produces it with [new Date().toISOString()] and
      consumes it with [new Date(s).getTime()], which are inverse to each
      other at millisecond precision, so the string is represented by the
      instant it denotes, in milliseconds since the epoch; [null] is
      [None].
    - React state captured by a callback is an explicit record given to
      the function; [Date.now()] is an explicit argument. *)

From Stdlib Require Import ZArith QArith Qround String Ascii List Lia.
From stdpp Require Import gmap strings.

Local Open Scope Z_scope.

(** ** The JavaScript primitives the source calls *)

Module JS.

(** [Math.floor] on an exact quotient. *)
Definition Math_floor (x : Q) : Z := Qfloor x.

(** [Math.round]: the nearest integer, a tie going towards +infinity,
    which is the floor of [x + 1/2]. *)
Definition Math_round (x : Q) : Z := Qfloor (x + (1 # 2))%Q.

Definition Math_max (a b : Z) : Z := Z.max a b.

(** The [/] of two integer-valued numbers. *)
Definition div (a b : Z) : Q := (inject_Z a / inject_Z b)%Q.

Definition code (c : ascii) : Z := Z.of_nat (nat_of_ascii c).

(** The ASCII part of StrWhiteSpaceChar: TAB, LF, VT, FF, CR, SP. *)
Definition is_white (c : ascii) : bool :=
  let n := code c in
  ((9 <=? n) && (n <=? 13)) || (n =? 32).

Fixpoint trim_start (s : string) : string :=
  match s with
  | String c rest => if is_white c then trim_start rest else s
  | EmptyString => s
  end.

(** Value of a character as a digit: 0-9, then a-z and A-Z from 10. *)
Definition digit_value (c : ascii) : option Z :=
  let n := code c in
  if (48 <=? n) && (n <=? 57) then Some (n - 48)
  else if (97 <=? n) && (n <=? 122) then Some (n - 87)
  else if (65 <=? n) && (n <=? 90) then Some (n - 55)
  else None.

(** The longest prefix of [s] made of digits of radix [R]. *)
Fixpoint digits_prefix (R : Z) (s : string) : list Z :=
  match s with
  | String c rest =>
      match digit_value c with
      | Some d => if d <? R then d :: digits_prefix R rest else []
      | None => []
      end
  | EmptyString => []
  end.

Definition to_int (R : Z) (ds : list Z) : Z :=
  fold_left (fun acc d => acc * R + d) ds 0.

Definition strip_sign (s : string) : Z * string :=
  match s with
  | String "-"%char rest => (-1, rest)
  | String "+"%char rest => (1, rest)
  | _ => (1, s)
  end.

Definition strip_prefix (s : string) : Z * string :=
  match s with
  | String "0"%char (String "x"%char rest) => (16, rest)
  | String "0"%char (String "X"%char rest) => (16, rest)
  | _ => (10, s)
  end.

(** [parseInt(string)] with no radix argument.  [None] is NaN. *)
Definition parseInt (s : string) : option Z :=
  let '(sign, s1) := strip_sign (trim_start s) in
  let '(R, s2) := strip_prefix s1 in
  match digits_prefix R s2 with
  | [] => None
  | ds => Some (sign * to_int R ds)
  end.

(** The [%] of two integers: the remainder has the sign of the dividend. *)
Definition rem (a b : Z) : Z := Z.rem a b.

(** The character of a decimal digit. *)
Definition digit_char (d : Z) : ascii := ascii_of_nat (Z.to_nat (48 + d)).

(** The decimal digits of a non-negative integer, most significant
    first; [fuel] bounds their number. *)
Fixpoint dec_digits (fuel : nat) (n : Z) : list Z :=
  match fuel with
  | O => []
  | S f => if n <? 10 then [n] else dec_digits f (n / 10) ++ [n mod 10]
  end.

Definition numeral (n : Z) : string :=
  string_of_list_ascii (map digit_char (dec_digits (S (Z.to_nat (Z.log2 n))) n)).

(** [String(n)] of an integer: its decimal numeral, with a minus sign
    when it is negative. *)
Definition String_of (n : Z) : string :=
  if n <? 0 then String "-"%char (numeral (- n)) else numeral n.

(** The first [n] characters of [cur] followed by [pad] repeated. *)
Fixpoint fill (n : nat) (cur pad : string) : string :=
  match n with
  | O => EmptyString
  | S k =>
      match cur with
      | String c rest => String c (fill k rest pad)
      | EmptyString =>
          match pad with
          | String c rest => String c (fill k rest pad)
          | EmptyString => EmptyString
          end
      end
  end.

(** [s.padStart(targetLength, padString)] *)
Definition padStart (targetLength : nat) (padString : string) (s : string) : string :=
  (fill (targetLength - String.length s) padString padString +:+ s)%string.

End JS.

(** ** Data model *)

Inductive TimerStatus : Type := running | paused | stopped.

#[global] Instance TimerStatus_eq_dec : EqDecision TimerStatus.
Proof. solve_decision. Defined.

(** [interface StageTimer] of the admin page.  The display page declares
    one more column, [updated_at], that no code reads or writes. *)
Record StageTimer : Type := {
  id : Z;
  duration : Z;            (* seconds *)
  start_time : option Z;   (* instant denoted by the ISO string, in ms *)
  status : TimerStatus
}.

(** The object literal given to [.update(...)]: the columns it names. *)
Record Patch : Type := {
  set_status : option TimerStatus;
  set_start_time : option (option Z);
  set_duration : option Z
}.

Definition apply_patch (p : Patch) (r : StageTimer) : StageTimer :=
  {| id := id r;
     duration := default (duration r) (set_duration p);
     start_time := default (start_time r) (set_start_time p);
     status := default (status r) (set_status p) |}.

(** [supabase.from("stage_timer").update(fields).eq("id", k)] *)
Record UpdateCall : Type := { fields : Patch; eq_id : Z }.

(** ** The shared store *)

Record PostgrestError : Type := { code : string; message : string }.

Inductive Response (A : Type) : Type :=
| Data (a : A)
| Error (e : PostgrestError).
Arguments Data {A} a.
Arguments Error {A} e.

Module Store.

(** Modelled from the spec: the [stage_timer] table and the supabase
    client are not in the sources.  The spec (section 6) asks of the
    store fetch-by-id, update-by-id-with-partial-fields and
    insert-if-absent, a single update applying all its fields together;
    a fetch of an absent record is the error PostgREST reports for
    [.single()] on no row, code PGRST116, the one the admin page tests
    for.  [outage] is the StoreUnavailable failure of section 7: while
    it is set, every call answers with that error and changes nothing. *)
Record t : Type := { rows : gmap Z StageTimer; outage : option PostgrestError }.

Definition no_rows : PostgrestError :=
  {| code := "PGRST116";
     message := "JSON object requested, multiple (or no) rows returned" |}.

Definition duplicate_key : PostgrestError :=
  {| code := "23505";
     message := "duplicate key value violates unique constraint" |}.

(** Modelled from the spec: fetch-by-id,
    [.select("*").eq("id", k).single()]. *)
Definition select_single (k : Z) (db : t) : Response StageTimer :=
  match outage db with
  | Some e => Error e
  | None =>
      match rows db !! k with
      | Some r => Data r
      | None => Error no_rows
      end
  end.

(** Modelled from the spec: insert-if-absent,
    [.insert(r).select().single()]; the answer carries the stored row. *)
Definition insert (r : StageTimer) (db : t) : t * Response StageTimer :=
  match outage db with
  | Some e => (db, Error e)
  | None =>
      match rows db !! id r with
      | Some _ => (db, Error duplicate_key)
      | None => ({| rows := <[id r := r]> (rows db); outage := None |}, Data r)
      end
  end.

(** Modelled from the spec: update-by-id-with-partial-fields,
    [.update(fields).eq("id", k)]; all the named fields at once, on the
    row of that id if there is one. *)
Definition update (u : UpdateCall) (db : t) : t :=
  match outage db with
  | Some _ => db
  | None => {| rows := alter (apply_patch (fields u)) (eq_id u) (rows db);
               outage := None |}
  end.

(** An action either returned early or awaited one update. *)
Definition exec (call : option UpdateCall) (db : t) : t :=
  match call with
  | Some u => update u db
  | None => db
  end.

Definition lookup (k : Z) (db : t) : option StageTimer := rows db !! k.

End Store.

(** ** The operator console: [AdminPage] *)

Module Admin.

Record State : Type := {
  timer : option StageTimer;
  minutesInput : string;
  currentTime : Z;
  loading : bool;
  error : option string
}.

Definition setTimer (r : StageTimer) (a : State) : State :=
  {| timer := Some r; minutesInput := minutesInput a;
     currentTime := currentTime a; loading := loading a; error := error a |}.

Definition setMinutesInput (s : string) (a : State) : State :=
  {| timer := timer a; minutesInput := s;
     currentTime := currentTime a; loading := loading a; error := error a |}.

Definition setCurrentTime (now : Z) (a : State) : State :=
  {| timer := timer a; minutesInput := minutesInput a;
     currentTime := now; loading := loading a; error := error a |}.

Definition setLoading (b : bool) (a : State) : State :=
  {| timer := timer a; minutesInput := minutesInput a;
     currentTime := currentTime a; loading := b; error := error a |}.

Definition setError (e : option string) (a : State) : State :=
  {| timer := timer a; minutesInput := minutesInput a;
     currentTime := currentTime a; loading := loading a; error := e |}.

(** [useState] initial values; [now] is the [Date.now()] of the first render. *)
Definition init (now : Z) : State :=
  {| timer := None; minutesInput := EmptyString; currentTime := now;
     loading := true; error := None |}.

Definition default_timer : StageTimer :=
  {| id := 1; duration := 300; start_time := None; status := stopped |}.

(** [fetchTimer], part_001 lines 36-74.  The supabase client reports a
    failed query in [error] and does not throw, so the [catch] branch
    has no counterpart here; [finally] is the last [setLoading]. *)
Definition fetchTimer (db : Store.t) (a : State) : Store.t * State :=
  let '(db', a') :=
    match Store.select_single 1 db with
    | Error fetchError =>
        if String.eqb (code fetchError) "PGRST116" then
          match Store.insert default_timer db with
          | (db1, Error insertError) =>
              (db1, setError (Some ("Failed to initialize timer: " +:+ message insertError)) a)
          | (db1, Data newData) => (db1, setTimer newData a)
          end
        else (db, setError (Some ("Failed to load timer: " +:+ message fetchError)) a)
    | Data data => (db, setTimer data a)
    end in
  (db', setLoading false a').

(** The realtime callback: [setTimer(payload.new)]. *)
Definition on_change (new : StageTimer) (a : State) : State := setTimer new a.

(** The 200 ms interval: [setCurrentTime(Date.now())]. *)
Definition tick (now : Z) (a : State) : State := setCurrentTime now a.

(** [startTimer], part_001 lines 106-117 and part_000 lines 62-73. *)
Definition startTimer (a : State) (now : Z) : option UpdateCall :=
  match timer a with
  | None => None
  | Some t =>
      if duration t <=? 0 then None
      else
        let startTime := now in
        Some {| fields := {| set_status := Some running;
                             set_start_time := Some (Some startTime);
                             set_duration := None |};
                eq_id := id t |}
  end.

(** [pauseTimer], part_001 lines 119-134 and part_000 lines 75-90. *)
Definition pauseTimer (a : State) (now : Z) : option UpdateCall :=
  match timer a with
  | None => None
  | Some t =>
      match start_time t with
      | None => None
      | Some startMs =>
          let elapsed := JS.Math_floor (JS.div (now - startMs) 1000) in
          let remaining := JS.Math_max 0 (duration t - elapsed) in
          Some {| fields := {| set_status := Some paused;
                               set_start_time := Some None;
                               set_duration := Some remaining |};
                  eq_id := id t |}
      end
  end.

(** [resetTimer], part_001 lines 136-146 and part_000 lines 92-102. *)
Definition resetTimer (a : State) : option UpdateCall :=
  match timer a with
  | None => None
  | Some t =>
      Some {| fields := {| set_status := Some stopped;
                           set_start_time := Some None;
                           set_duration := None |};
              eq_id := id t |}
  end.

(** [updateDuration], part_001 lines 148-161 and part_000 lines 104-117:
    the update it issues, if any, and the state after [setMinutesInput].
    The [None] of [parseInt] is the [isNaN(mins)] early return. *)
Definition updateDuration (a : State) : option UpdateCall * State :=
  match timer a with
  | None => (None, a)
  | Some t =>
      match JS.parseInt (minutesInput a) with
      | None => (None, a)
      | Some mins =>
          (Some {| fields := {| set_status := None;
                                set_start_time := None;
                                set_duration := Some (mins * 60) |};
                   eq_id := id t |},
           setMinutesInput EmptyString a)
      end
  end.

(** [getRemainingTime], part_001 lines 163-172 and part_000 lines 119-128. *)
Definition getRemainingTime (a : State) : Z :=
  match timer a with
  | None => 0
  | Some t =>
      match status t, start_time t with
      | running, Some startMs =>
          let elapsed := JS.Math_floor (JS.div (currentTime a - startMs) 1000) in
          let remaining := JS.Math_max 0 (duration t - elapsed) in
          remaining
      | _, _ => duration t
      end
  end.

(** [formatTime], part_001 lines 21-26 and part_000 lines 15-20. *)
Definition formatTime (sec : Z) : string :=
  let sec := if sec <? 0 then 0 else sec in
  let s := JS.rem sec 60 in
  let m := JS.Math_floor (JS.div sec 60) in
  (JS.padStart 2 "0" (JS.String_of m) +:+ ":" +:+ JS.padStart 2 "0" (JS.String_of s))%string.

(** A string in a condition: null and the empty string are falsy. *)
Definition truthy (e : option string) : bool :=
  match e with
  | Some (String _ _) => true
  | _ => false
  end.

(** What [AdminPage] returns, part_001 lines 174-290: one of the three
    full-page notices or the control panel, of which the status word, the
    two renderings of the remaining time and the [disabled] attribute of
    the Start button are kept. *)
Record PanelView : Type := {
  status_word : TimerStatus;
  time_text : string;
  seconds_text : Z;
  start_disabled : bool
}.

Inductive Screen : Type :=
| LoadingScreen
| ErrorScreen (msg : string)
| NoTimerScreen
| Panel (p : PanelView).

Definition render (a : State) : Screen :=
  if loading a then LoadingScreen
  else if truthy (error a) then ErrorScreen (default EmptyString (error a))
  else
    match timer a with
    | None => NoTimerScreen
    | Some t =>
        let remainingTime := getRemainingTime a in
        Panel {| status_word := status t;
                 time_text := formatTime remainingTime;
                 seconds_text := remainingTime;
                 start_disabled := (duration t <=? 0) || bool_decide (status t = running) |}
    end.

(** The Retry button of the error notice, part_001 lines 188-192. *)
Definition retry (db : Store.t) (a : State) : Store.t * State :=
  fetchTimer db (setLoading true (setError None a)).

End Admin.

(** ** The passive display: [DisplayPage] *)

Module Display.

Record State : Type := {
  timer : option StageTimer;
  offsetMs : Z;
  remaining : Z
}.

Definition init : State := {| timer := None; offsetMs := 0; remaining := 0 |}.

Definition setTimer (r : StageTimer) (d : State) : State :=
  {| timer := Some r; offsetMs := offsetMs d; remaining := remaining d |}.

Definition setOffsetMs (o : Z) (d : State) : State :=
  {| timer := timer d; offsetMs := o; remaining := remaining d |}.

Definition setRemaining (v : Z) (d : State) : State :=
  {| timer := timer d; offsetMs := offsetMs d; remaining := v |}.

(** [loadTimer], page.tsx lines 30-38: only [data] is taken from the
    answer; an error leaves it null. *)
Definition loadTimer (db : Store.t) (d : State) : Store.t * State :=
  match Store.select_single 1 db with
  | Data data => (db, setTimer data d)
  | Error _ => (db, d)
  end.

(** [computeOffset], page.tsx lines 40-50: [t0] and [t1] are the two
    readings of [Date.now()] around the request, [serverMs] is
    [json.now_ms]. *)
Definition computeOffset (t0 t1 serverMs : Z) (d : State) : State :=
  let midpoint := JS.Math_round (JS.div (t0 + t1) 2) in
  setOffsetMs (serverMs - midpoint) d.

(** [computeRemaining], page.tsx lines 75-86; [now] is [Date.now()]. *)
Definition computeRemaining (d : State) (now : Z) : Z :=
  match timer d with
  | None => 0
  | Some t =>
      match status t, start_time t with
      | running, Some start =>
          let serverNow := now + offsetMs d in
          let elapsed := JS.Math_floor (JS.div (serverNow - start) 1000) in
          JS.Math_max 0 (duration t - elapsed)
      | _, _ => JS.Math_max 0 (duration t)
      end
  end.

(** The 200 ms interval: [setRemaining(computeRemaining())]. *)
Definition tick (now : Z) (d : State) : State :=
  setRemaining (computeRemaining d now) d.

(** The realtime callback: [setTimer(payload.new)]. *)
Definition on_change (new : StageTimer) (d : State) : State := setTimer new d.

(** [fmt], page.tsx lines 16-21. *)
Definition fmt (sec : Z) : string :=
  let sec := if sec <? 0 then 0 else sec in
  let s := JS.rem sec 60 in
  let m := JS.Math_floor (JS.div sec 60) in
  (JS.padStart 2 "0" (JS.String_of m) +:+ ":" +:+ JS.padStart 2 "0" (JS.String_of s))%string.

(** The colour of the digits, page.tsx lines 110-116, and whether the
    red glow behind them is drawn, lines 124-126. *)
Inductive DigitStyle : Type := RedPulse | RedSteady | White.

Definition digit_style (remaining : Z) : DigitStyle :=
  if (remaining <=? 60) && (0 <? remaining) then RedPulse
  else if remaining =? 0 then RedSteady
  else White.

Definition glow (remaining : Z) : bool := (remaining <=? 10) && (0 <? remaining).

(** What the display can receive: a tick of its interval, a change event,
    the answer to its fetch, the answer to its clock probe. *)
Inductive Event : Type :=
| Tick (now : Z)
| Change (new : StageTimer)
| Loaded (db : Store.t)
| Probed (t0 t1 serverMs : Z).

Definition handle (e : Event) (d : State) : State :=
  match e with
  | Tick now => tick now d
  | Change new => on_change new d
  | Loaded db => snd (loadTimer db d)
  | Probed t0 t1 serverMs => computeOffset t0 t1 serverMs d
  end.

Definition handle_all (es : list Event) (d : State) : State :=
  fold_left (fun d e => handle e d) es d.

End Display.

(** ** The controller as a state machine over the store and the console *)

Inductive Action : Type :=
| Start
| Pause
| Reset
| SetDuration (minutes : string).

Record World : Type := { store : Store.t; console : Admin.State }.

(** The handler behind each control: the update it issues and the console
    state it leaves.  For [SetDuration] the operator first types the text
    ([setMinutesInput(e.target.value)]), then presses the button. *)
Definition request (x : Action) (now : Z) (a : Admin.State)
  : option UpdateCall * Admin.State :=
  match x with
  | Start => (Admin.startTimer a now, a)
  | Pause => (Admin.pauseTimer a now, a)
  | Reset => (Admin.resetTimer a, a)
  | SetDuration minutes => Admin.updateDuration (Admin.setMinutesInput minutes a)
  end.

(** The change event of the row an update went to, received by the
    console's subscription. *)
Definition deliver (call : option UpdateCall) (db : Store.t) (a : Admin.State)
  : Admin.State :=
  match call with
  | Some u =>
      match Store.lookup (eq_id u) db with
      | Some new => Admin.on_change new a
      | None => a
      end
  | None => a
  end.

Definition act (x : Action) (now : Z) (w : World) : World :=
  let '(call, a) := request x now (console w) in
  let db := Store.exec call (store w) in
  {| store := db; console := deliver call db a |}.

(** The record the console holds is the one in the store, which answers. *)
Definition synced (w : World) (r : StageTimer) : Prop :=
  Admin.timer (console w) = Some r
  /\ Store.lookup (id r) (store w) = Some r
  /\ Store.outage (store w) = None.

(** What an issued update makes of the record it is aimed at. *)
Definition after_call (call : option UpdateCall) (r : StageTimer) : StageTimer :=
  match call with
  | Some u => apply_patch (fields u) r
  | None => r
  end.

(** ** The reference clock: [GET /api/time] *)

Module Api.

(** The JSON body: [now] is the ISO string of the instant, kept as the
    instant it denotes, like [start_time]. *)
Record Body : Type := { now : Z; now_ms : Z }.

(** [GET], page.tsx lines 152-158; [clock] is the server's [new Date()]. *)
Definition GET (clock : Z) : Body := {| now := clock; now_ms := clock |}.

End Api.

(** ** The earlier revision of the console, part_000 *)

Module Admin0.

Record State : Type := {
  timer : option StageTimer;
  minutesInput : string;
  currentTime : Z
}.

Definition setTimer (r : StageTimer) (a : State) : State :=
  {| timer := Some r; minutesInput := minutesInput a; currentTime := currentTime a |}.

(** Modelled from the spec: [.select("*").single()] with no filter, which
    answers with the row when the table holds exactly one and with the
    error PGRST116 otherwise. *)
Definition select_single_any (db : Store.t) : Response StageTimer :=
  match Store.outage db with
  | Some e => Error e
  | None =>
      match map_to_list (Store.rows db) with
      | [(_, r)] => Data r
      | _ => Error Store.no_rows
      end
  end.

(** [fetchTimer], part_000 lines 28-31. *)
Definition fetchTimer (db : Store.t) (a : State) : Store.t * State :=
  match select_single_any db with
  | Data data => (db, setTimer data a)
  | Error _ => (db, a)
  end.

(** What this revision returns before the panel, part_000 line 130. *)
Definition shows_loading (a : State) : bool :=
  match timer a with None => true | Some _ => false end.

End Admin0.

(** ** The console as the operator can use it *)

(** A control can be pressed when the panel is on the screen, and Start
    only when its button is not disabled. *)
Definition pressable (x : Action) (a : Admin.State) : bool :=
  match Admin.render a with
  | Admin.Panel p =>
      match x with
      | Start => negb (Admin.start_disabled p)
      | _ => true
      end
  | _ => false
  end.

Definition press (x : Action) (now : Z) (w : World) : World :=
  if pressable x (console w) then act x now w else w.

(** ** The spec's words, as predicates *)

(** The invariants of the data model (spec, section 3). *)
Definition coherent (r : StageTimer) : Prop :=
  is_Some (start_time r) <-> status r = running.

Definition invariant (r : StageTimer) : Prop :=
  0 <= duration r /\ coherent r.

(** The projector contract in the spec's words (section 4.3), as a
    predicate on the value a projector returns. *)
Definition projector_spec (remainingSeconds : Z) (r : StageTimer)
    (offsetMillis localNow : Z) : Prop :=
  0 <= remainingSeconds
  /\ (status r <> running -> remainingSeconds = Z.max 0 (duration r))
  /\ (forall T, status r = running -> start_time r = Some T ->
        remainingSeconds
        = Z.max 0 (duration r - (localNow + offsetMillis - T) / 1000)).

(** The guard of setDuration in the spec's words: the record is written
    only for a text that parses as a non-negative number of minutes. *)
Definition setDuration_guard_spec : Prop :=
  forall (w : World) (r : StageTimer) (input : string) (now : Z),
    synced w r ->
    Store.lookup (id r) (store (act (SetDuration input) now w)) <> Some r ->
    exists minutes, JS.parseInt input = Some minutes /\ 0 <= minutes.

(** The minutes an action carries, if it carries any that [parseInt]
    reads, are not negative. *)
Definition minutes_not_negative (x : Action) : Prop :=
  match x with
  | SetDuration input =>
      match JS.parseInt input with
      | Some minutes => 0 <= minutes
      | None => True
      end
  | _ => True
  end.

(** A run of the machine: the actions in order, each with the clock
    reading at which it is taken. *)
Fixpoint run (xs : list (Action * Z)) (w : World) : World :=
  match xs with
  | [] => w
  | (x, now) :: rest => run rest (act x now w)
  end.

(** ** Concrete records and worlds, for examples *)

(** A store that holds [r] alone and a console that has loaded it. *)
Definition world_of (r : StageTimer) (now : Z) : World :=
  {| store := {| Store.rows := {[ id r := r ]}; Store.outage := None |};
     console := Admin.setLoading false (Admin.setTimer r (Admin.init now)) |}.

Definition display_of (r : StageTimer) (offsetMillis : Z) : Display.State :=
  Display.setOffsetMs offsetMillis (Display.setTimer r Display.init).

Definition running_100 : StageTimer :=
  {| id := 1; duration := 100; start_time := Some 0; status := running |}.

Definition stopped_120 : StageTimer :=
  {| id := 1; duration := 120; start_time := None; status := stopped |}.

Definition stopped_minus_300 : StageTimer :=
  {| id := 1; duration := -300; start_time := None; status := stopped |}.

Definition empty_store : Store.t := {| Store.rows := ∅; Store.outage := None |}.

(** ** Numerals, for the properties of the formatted time *)

(** A decimal digit. *)
Definition is_digit (d : Z) : Prop := 0 <= d < 10.

(** The digits of the numeral of [n >= 0]. *)
Definition digits_of (n : Z) : list Z := JS.dec_digits (S (Z.to_nat (Z.log2 n))) n.

(** The text of a list of digits. *)
Definition text_of (ds : list Z) : string := string_of_list_ascii (map JS.digit_char ds).

(** What may follow a text of digits that is read as a number here: the
    end of the string or a colon. *)
Inductive stop : string -> Prop :=
| stop_end : stop EmptyString
| stop_colon (s : string) : stop (String ":"%char s).

(** [padStart(2, "0")] on the text of digits. *)
Definition pad2 (ds : list Z) : list Z :=
  match ds with
  | [d] => [0; d]
  | _ => ds
  end.

(** Whether every character of a text is one of 0 to 9. *)
Fixpoint is_decimal (s : string) : bool :=
  match s with
  | EmptyString => true
  | String c rest => (48 <=? JS.code c) && (JS.code c <=? 57) && is_decimal rest
  end.

(** The two fields of a formatted time, as digits. *)
Definition minutes_digits (sec : Z) : list Z := pad2 (digits_of (Z.max 0 sec / 60)).
Definition seconds_digits (sec : Z) : list Z := pad2 (digits_of (Z.max 0 sec mod 60)).


(** * Properties *)

(** ** [parseInt] on sample texts *)

Example parseInt_5 : JS.parseInt "5" = Some 5.
Proof. reflexivity. Qed.
Example parseInt_blank : JS.parseInt EmptyString = None.
Proof. reflexivity. Qed.
Example parseInt_abc : JS.parseInt "abc" = None.
Proof. reflexivity. Qed.
Example parseInt_neg : JS.parseInt "-5" = Some (-5).
Proof. reflexivity. Qed.
Example parseInt_frac : JS.parseInt " 12.75" = Some 12.
Proof. reflexivity. Qed.
Example parseInt_hex : JS.parseInt "0x1f" = Some 31.
Proof. reflexivity. Qed.
Example parseInt_0x : JS.parseInt "0x" = None.
Proof. reflexivity. Qed.

(** ** Arithmetic of the primitives *)

Lemma Math_floor_div (x : Z) (d : positive) :
  JS.Math_floor (JS.div x (Z.pos d)) = x / Z.pos d.
Proof.
  unfold JS.Math_floor, JS.div, Qdiv, Qmult, Qinv, inject_Z. simpl.
  now rewrite Z.mul_1_r.
Qed.

Lemma Math_round_half (x : Z) : JS.Math_round (JS.div x 2) = (x + 1) / 2.
Proof.
  unfold JS.Math_round, JS.div, Qdiv, Qmult, Qinv, Qplus, inject_Z. simpl.
  change (Z.pos (1 * 2)) with 2. change (Z.pos (1 * 2 * 2)) with (2 * 2).
  replace (x * 1 * 2 + 1 * 2) with ((x + 1) * 2) by lia.
  rewrite Z.div_mul_cancel_r by lia. reflexivity.
Qed.

(** The floor of a sum of two spans is the sum of the floors or one more. *)
Lemma floor_split (a b : Z) :
  a / 1000 + b / 1000 <= (a + b) / 1000 <= a / 1000 + b / 1000 + 1.
Proof.
  pose proof (Z.div_mod a 1000 ltac:(lia)).
  pose proof (Z.div_mod b 1000 ltac:(lia)).
  pose proof (Z.mod_pos_bound a 1000 ltac:(lia)).
  pose proof (Z.mod_pos_bound b 1000 ltac:(lia)).
  split.
  - apply Z.div_le_lower_bound; lia.
  - assert ((a + b) / 1000 < a / 1000 + b / 1000 + 2); [|lia].
    apply Z.div_lt_upper_bound; lia.
Qed.

(** ** The store under an update *)

Lemma lookup_update_eq (u : UpdateCall) (db : Store.t) (r : StageTimer) :
  Store.outage db = None ->
  Store.lookup (eq_id u) db = Some r ->
  Store.lookup (eq_id u) (Store.update u db) = Some (apply_patch (fields u) r).
Proof.
  unfold Store.lookup, Store.update. intros -> Hr. simpl.
  rewrite lookup_alter_eq, Hr. reflexivity.
Qed.

Lemma lookup_update_ne (u : UpdateCall) (db : Store.t) (k : Z) :
  k <> eq_id u ->
  Store.lookup k (Store.update u db) = Store.lookup k db.
Proof.
  unfold Store.lookup, Store.update. intros Hk.
  destruct (Store.outage db); [reflexivity|]. simpl.
  rewrite lookup_alter_ne; [reflexivity | congruence].
Qed.

Lemma outage_update (u : UpdateCall) (db : Store.t) :
  Store.outage (Store.update u db) = Store.outage db.
Proof. unfold Store.update. destruct (Store.outage db) eqn:E; simpl; auto. Qed.

(** Every update a handler issues is aimed at the record the console holds. *)
Lemma request_eq_id (x : Action) (now : Z) (a : Admin.State) (r : StageTimer) (u : UpdateCall) :
  Admin.timer a = Some r ->
  fst (request x now a) = Some u ->
  eq_id u = id r.
Proof.
  intros Ht. destruct x; simpl;
    unfold Admin.startTimer, Admin.pauseTimer, Admin.resetTimer, Admin.updateDuration;
    simpl; rewrite Ht.
  - destruct (duration r <=? 0); [discriminate|]. now intros [= <-].
  - destruct (start_time r); [|discriminate]. now intros [= <-].
  - now intros [= <-].
  - destruct (JS.parseInt minutes); [|discriminate]. simpl. now intros [= <-].
Qed.

(** A handler changes nothing of the console state but the input box. *)
Lemma request_timer (x : Action) (now : Z) (a : Admin.State) :
  Admin.timer (snd (request x now a)) = Admin.timer a.
Proof.
  destruct x; simpl; try reflexivity.
  unfold Admin.updateDuration. simpl.
  destruct (Admin.timer a) eqn:Ht; [|simpl; congruence].
  destruct (JS.parseInt minutes); simpl; congruence.
Qed.

(** One step of the machine from a synced world: the world stays synced,
    on the record the issued update makes. *)
Lemma act_synced (x : Action) (now : Z) (w : World) (r : StageTimer) :
  synced w r ->
  synced (act x now w) (after_call (fst (request x now (console w))) r).
Proof.
  intros (Ht & Hr & Ho). unfold act.
  pose proof (request_eq_id x now (console w) r) as Hid.
  pose proof (request_timer x now (console w)) as Htm.
  destruct (request x now (console w)) as [call a]. simpl in *.
  destruct call as [u|]; simpl.
  - specialize (Hid u Ht eq_refl).
    assert (Store.lookup (eq_id u) (Store.update u (store w))
            = Some (apply_patch (fields u) r)) as Hl
      by (apply lookup_update_eq; [assumption | now rewrite Hid]).
    unfold deliver. rewrite Hl. repeat split; simpl.
    + now rewrite <- Hid.
    + now rewrite outage_update.
  - repeat split; simpl; congruence.
Qed.

Lemma world_of_synced (r : StageTimer) (now : Z) : synced (world_of r now) r.
Proof.
  repeat split. unfold Store.lookup. simpl. apply lookup_singleton_eq.
Qed.

(** ** The projectors *)

Lemma computeRemaining_running (d : Display.State) (r : StageTimer) (T localNow : Z) :
  Display.timer d = Some r -> status r = running -> start_time r = Some T ->
  Display.computeRemaining d localNow
  = Z.max 0 (duration r - (localNow + Display.offsetMs d - T) / 1000).
Proof.
  intros Ht Hs HT. unfold Display.computeRemaining.
  rewrite Ht, Hs, HT. now rewrite Math_floor_div.
Qed.

Lemma computeRemaining_idle (d : Display.State) (r : StageTimer) (localNow : Z) :
  Display.timer d = Some r -> status r <> running \/ start_time r = None ->
  Display.computeRemaining d localNow = Z.max 0 (duration r).
Proof.
  intros Ht H. unfold Display.computeRemaining. rewrite Ht.
  destruct (status r), (start_time r); try reflexivity.
  destruct H; congruence.
Qed.

Lemma getRemainingTime_running (a : Admin.State) (r : StageTimer) (T : Z) :
  Admin.timer a = Some r -> status r = running -> start_time r = Some T ->
  Admin.getRemainingTime a
  = Z.max 0 (duration r - (Admin.currentTime a - T) / 1000).
Proof.
  intros Ht Hs HT. unfold Admin.getRemainingTime.
  rewrite Ht, Hs, HT. now rewrite Math_floor_div.
Qed.

Lemma getRemainingTime_idle (a : Admin.State) (r : StageTimer) :
  Admin.timer a = Some r -> status r <> running \/ start_time r = None ->
  Admin.getRemainingTime a = duration r.
Proof.
  intros Ht H. unfold Admin.getRemainingTime. rewrite Ht.
  destruct (status r), (start_time r); try reflexivity.
  destruct H; congruence.
Qed.

(** C1, as stated, fails for the admin page's projector: [getRemainingTime]
    reads the console's clock and knows no offset, so with an offset of
    30 s it reports 100 where the contract asks for 70; and for a record
    that is not running it returns [duration] itself, -300 for a duration
    of -300, where the contract asks for a non-negative value. *)
Lemma getRemainingTime_not_projector :
  (Admin.getRemainingTime (Admin.tick 0 (console (world_of running_100 0))) = 100
   /\ ~ projector_spec
          (Admin.getRemainingTime (Admin.tick 0 (console (world_of running_100 0))))
          running_100 30000 0)
  /\ (Admin.getRemainingTime (Admin.tick 0 (console (world_of stopped_minus_300 0))) = -300
      /\ ~ projector_spec
             (Admin.getRemainingTime (Admin.tick 0 (console (world_of stopped_minus_300 0))))
             stopped_minus_300 0 0).
Proof.
  repeat split.
  - intros (_ & _ & H). specialize (H 0 eq_refl eq_refl). vm_compute in H. discriminate.
  - intros (H & _). vm_compute in H. now apply H.
Qed.

(** C1 (amended): the display page's [computeRemaining] meets the projector
    contract for every record, offset and clock reading.  The admin page's
    [getRemainingTime] applies no offset: the reading of the console's own
    clock is its reference instant.  With that reading it returns
    max(0, duration - floor((currentTime - start_time)/1000)), which is not
    negative, for a running record with a start_time, and it meets the
    whole contract, at offset 0, for every record whose duration is not
    negative. *)
Theorem projector_contract (r : StageTimer) (d : Display.State) (a : Admin.State)
    (localNow : Z) :
  Display.timer d = Some r ->
  Admin.timer a = Some r ->
  projector_spec (Display.computeRemaining d localNow) r (Display.offsetMs d) localNow
  /\ (forall T, status r = running -> start_time r = Some T ->
        Admin.getRemainingTime (Admin.tick localNow a)
        = Z.max 0 (duration r - (localNow - T) / 1000)
        /\ 0 <= Admin.getRemainingTime (Admin.tick localNow a))
  /\ (0 <= duration r ->
        projector_spec (Admin.getRemainingTime (Admin.tick localNow a)) r 0 localNow).
Proof.
  intros Hd Ha.
  assert (Admin.timer (Admin.tick localNow a) = Some r) as Ha' by exact Ha.
  assert (forall T, status r = running -> start_time r = Some T ->
            Admin.getRemainingTime (Admin.tick localNow a)
            = Z.max 0 (duration r - (localNow - T) / 1000)) as Hrun.
  { intros T Hs HT. now rewrite (getRemainingTime_running _ r T). }
  split; [|split].
  - unfold projector_spec. split; [|split].
    + unfold Display.computeRemaining. rewrite Hd.
      destruct (status r), (start_time r); unfold JS.Math_max; lia.
    + intros Hs. apply computeRemaining_idle; auto.
    + intros T Hs HT. now apply computeRemaining_running.
  - intros T Hs HT. rewrite (Hrun T Hs HT). split; [reflexivity | lia].
  - intros Hpos. unfold projector_spec. split; [|split].
    + destruct (decide (status r = running)) as [Hs|Hs].
      * destruct (start_time r) as [T|] eqn:HT.
        -- rewrite (Hrun T Hs eq_refl). lia.
        -- rewrite (getRemainingTime_idle _ r); auto.
      * rewrite (getRemainingTime_idle _ r); auto.
    + intros Hs. rewrite (getRemainingTime_idle _ r); auto. lia.
    + intros T Hs HT. rewrite (Hrun T Hs HT). f_equal. f_equal. f_equal. lia.
Qed.

Lemma projector_contract_witness :
  Display.computeRemaining (display_of running_100 50) 29999 = 70
  /\ Admin.getRemainingTime (Admin.tick 30999 (console (world_of running_100 0))) = 70.
Proof.
  destruct (projector_contract running_100 (display_of running_100 50)
              (console (world_of running_100 0)) 29999 eq_refl eq_refl)
    as ((_ & _ & Hd) & _ & _).
  destruct (projector_contract running_100 (display_of running_100 50)
              (console (world_of running_100 0)) 30999 eq_refl eq_refl)
    as (_ & Ha & _).
  split.
  - exact (Hd 0 eq_refl eq_refl).
  - exact (proj1 (Ha 0 eq_refl eq_refl)).
Defined.

(** ** The clock offset *)

(** C6: the offset [computeOffset] stores is [serverMs] minus the integer
    nearest to (t0 + t1)/2, a half going up; for t0 = 1000, t1 = 1200 and
    serverMs = 2150 it is 1050. *)
Theorem computeOffset_midpoint (t0 t1 serverMs : Z) (d : Display.State) :
  let midpoint := (t0 + t1 + 1) / 2 in
  Display.offsetMs (Display.computeOffset t0 t1 serverMs d) = serverMs - midpoint
  /\ 2 * midpoint - 1 <= t0 + t1 <= 2 * midpoint
  /\ JS.Math_round (JS.div (t0 + t1) 2) = midpoint
  /\ Display.offsetMs (Display.computeOffset 1000 1200 2150 d) = 1050.
Proof.
  simpl. rewrite Math_round_half.
  pose proof (Z.div_mod (t0 + t1 + 1) 2 ltac:(lia)).
  pose proof (Z.mod_pos_bound (t0 + t1 + 1) 2 ltac:(lia)).
  repeat split; try reflexivity; lia.
Qed.

(** ** What each control makes of the record *)

Lemma start_call (a : Admin.State) (r : StageTimer) (now : Z) :
  Admin.timer a = Some r ->
  Admin.startTimer a now
  = if duration r <=? 0 then None
    else Some {| fields := {| set_status := Some running;
                              set_start_time := Some (Some now);
                              set_duration := None |};
                 eq_id := id r |}.
Proof. intros Ht. unfold Admin.startTimer. now rewrite Ht. Qed.

Lemma pause_call (a : Admin.State) (r : StageTimer) (now : Z) :
  Admin.timer a = Some r ->
  Admin.pauseTimer a now
  = match start_time r with
    | None => None
    | Some T =>
        Some {| fields := {| set_status := Some paused;
                             set_start_time := Some None;
                             set_duration :=
                               Some (Z.max 0 (duration r - (now - T) / 1000)) |};
                eq_id := id r |}
    end.
Proof.
  intros Ht. unfold Admin.pauseTimer. rewrite Ht.
  destruct (start_time r); [|reflexivity]. now rewrite Math_floor_div.
Qed.

Lemma updateDuration_call (a : Admin.State) (r : StageTimer) (input : string) :
  Admin.timer a = Some r ->
  fst (Admin.updateDuration (Admin.setMinutesInput input a))
  = match JS.parseInt input with
    | None => None
    | Some mins =>
        Some {| fields := {| set_status := None;
                             set_start_time := None;
                             set_duration := Some (mins * 60) |};
                eq_id := id r |}
    end.
Proof.
  intros Ht. unfold Admin.updateDuration. simpl. rewrite Ht.
  now destruct (JS.parseInt input).
Qed.

(** A handler that returns early leaves the store as it is. *)
Lemma act_no_call (x : Action) (now : Z) (w : World) :
  fst (request x now (console w)) = None ->
  store (act x now w) = store w
  /\ Admin.timer (console (act x now w)) = Admin.timer (console w).
Proof.
  intros H. unfold act.
  pose proof (request_timer x now (console w)) as Ht.
  destruct (request x now (console w)) as [call a]. simpl in *. subst call.
  simpl. auto.
Qed.

Lemma act_button_no_call (x : Action) (now : Z) (w : World) :
  (forall s, x <> SetDuration s) ->
  fst (request x now (console w)) = None ->
  act x now w = w.
Proof.
  intros Hx H. unfold act. destruct w as [db a].
  destruct x; simpl in *; try (rewrite H; reflexivity).
  now destruct (Hx minutes).
Qed.

Lemma start_refused (w : World) (r : StageTimer) (now : Z) :
  synced w r -> duration r <= 0 -> act Start now w = w.
Proof.
  intros Hw Hd. apply act_button_no_call; [discriminate|].
  simpl. rewrite (start_call _ r) by apply Hw.
  destruct (Z.leb_spec (duration r) 0); [reflexivity | lia].
Qed.

Lemma start_synced (w : World) (r : StageTimer) (now : Z) :
  synced w r -> 0 < duration r ->
  synced (act Start now w)
    {| id := id r; duration := duration r;
       start_time := Some now; status := running |}.
Proof.
  intros Hw Hd. pose proof (act_synced Start now w r Hw) as H.
  simpl in H. rewrite (start_call _ r) in H by apply Hw.
  destruct (Z.leb_spec (duration r) 0); [lia|]. exact H.
Qed.

Lemma pause_refused (w : World) (r : StageTimer) (now : Z) :
  synced w r -> start_time r = None -> act Pause now w = w.
Proof.
  intros Hw HT. apply act_button_no_call; [discriminate|].
  simpl. rewrite (pause_call _ r) by apply Hw. now rewrite HT.
Qed.

Lemma pause_synced (w : World) (r : StageTimer) (now T : Z) :
  synced w r -> start_time r = Some T ->
  synced (act Pause now w)
    {| id := id r;
       duration := Z.max 0 (duration r - (now - T) / 1000);
       start_time := None;
       status := paused |}.
Proof.
  intros Hw HT. pose proof (act_synced Pause now w r Hw) as H.
  simpl in H. rewrite (pause_call _ r) in H by apply Hw.
  rewrite HT in H. exact H.
Qed.

Lemma setDuration_synced (w : World) (r : StageTimer) (input : string) (now minutes : Z) :
  synced w r -> JS.parseInt input = Some minutes ->
  synced (act (SetDuration input) now w)
    {| id := id r; duration := minutes * 60;
       start_time := start_time r; status := status r |}.
Proof.
  intros Hw Hp.
  pose proof (act_synced (SetDuration input) now w r Hw) as H. simpl in H.
  rewrite (updateDuration_call _ r) in H by apply Hw.
  rewrite Hp in H. exact H.
Qed.

(** ** pause *)

(** C4: pause changes nothing when start_time is null, hence, on a
    record of the data model (start_time set exactly when running),
    nothing unless the status is running; on a running record started at
    [T] it stores
    duration = max(0, duration - floor((referenceNow - T)/1000)),
    start_time = null and status = paused.  Paused 30 000 ms after its
    start, a running record of duration 100 becomes duration 70, no
    start_time, paused. *)
Theorem pause_effect (w : World) (r : StageTimer) (referenceNow : Z) :
  synced w r ->
  (start_time r = None -> act Pause referenceNow w = w)
  /\ (coherent r -> status r <> running -> act Pause referenceNow w = w)
  /\ (forall T, status r = running -> start_time r = Some T ->
        synced (act Pause referenceNow w)
          {| id := id r;
             duration := Z.max 0 (duration r - (referenceNow - T) / 1000);
             start_time := None;
             status := paused |})
  /\ (forall T, status r = running -> start_time r = Some T ->
        duration r = 100 -> referenceNow = T + 30000 ->
        synced (act Pause referenceNow w)
          {| id := id r; duration := 70; start_time := None; status := paused |}).
Proof.
  intros Hw. split; [|split; [|split]].
  - now apply pause_refused.
  - intros Hc Hs. apply (pause_refused w r); [exact Hw|].
    destruct (start_time r) as [T|] eqn:HT; [|reflexivity].
    destruct Hs. apply Hc. eauto.
  - intros T _ HT. now apply pause_synced.
  - intros T _ HT Hd ->. pose proof (pause_synced w r (T + 30000) T Hw HT) as H.
    rewrite Hd in H. replace (T + 30000 - T) with 30000 in H by lia. exact H.
Qed.

Lemma pause_effect_witness :
  synced (act Pause 30000 (world_of running_100 0))
    {| id := 1; duration := 70; start_time := None; status := paused |}
  /\ act Pause 30000 (world_of stopped_120 0) = world_of stopped_120 0.
Proof.
  assert (coherent stopped_120) as Hc
    by (split; [intros [? [=]] | intros [=]]).
  split.
  - exact (proj2 (proj2 (proj2 (pause_effect _ _ 30000 (world_of_synced running_100 0))))
             0 eq_refl eq_refl eq_refl eq_refl).
  - apply (proj1 (proj2 (pause_effect _ _ 30000 (world_of_synced stopped_120 0))) Hc).
    discriminate.
Defined.

(** The guard of pause is on [start_time], not on [status]: outside the
    data model's invariant, a stopped record that still carries a
    start_time is rewritten by pause. *)
Example pause_guard_is_start_time :
  Store.lookup 1
    (store (act Pause 30000
              (world_of {| id := 1; duration := 100; start_time := Some 0;
                           status := stopped |} 0)))
  = Some {| id := 1; duration := 70; start_time := None; status := paused |}.
Proof. vm_compute. reflexivity. Qed.

(** ** start *)

(** C5: start changes nothing when duration <= 0; when duration > 0 it
    stores status = running and start_time = referenceNow, whatever the
    status was: on a record already running the start_time is rebased.
    After a stopped record of duration 120 is started at [T], both
    projectors report 55 at reference time T + 65 000 ms and 0 at
    T + 130 000 ms. *)
Theorem start_effect (w : World) (r : StageTimer) (T : Z) :
  synced w r ->
  (duration r <= 0 -> act Start T w = w)
  /\ (0 < duration r ->
        synced (act Start T w)
          {| id := id r; duration := duration r;
             start_time := Some T; status := running |})
  /\ (forall T0, status r = running -> start_time r = Some T0 -> 0 < duration r ->
        exists r', synced (act Start T w) r'
                   /\ status r' = running /\ start_time r' = Some T)
  /\ (status r = stopped -> duration r = 120 ->
        Admin.getRemainingTime (Admin.tick (T + 65000) (console (act Start T w))) = 55
        /\ Admin.getRemainingTime (Admin.tick (T + 130000) (console (act Start T w))) = 0
        /\ forall (d : Display.State) (localNow : Z),
             Display.timer d = Admin.timer (console (act Start T w)) ->
             (localNow + Display.offsetMs d = T + 65000 ->
                Display.computeRemaining d localNow = 55)
             /\ (localNow + Display.offsetMs d = T + 130000 ->
                Display.computeRemaining d localNow = 0)).
Proof.
  intros Hw. split; [|split; [|split]].
  - now apply start_refused.
  - now apply start_synced.
  - intros T0 _ _ Hd. eexists. split; [exact (start_synced w r T Hw Hd)|]. split; reflexivity.
  - intros _ Hd.
    assert (0 < duration r) as Hpos by lia.
    pose proof (start_synced w r T Hw Hpos) as (Ht & _).
    set (r' := {| id := id r; duration := duration r;
                  start_time := Some T; status := running |}) in *.
    split; [|split].
    + rewrite (getRemainingTime_running _ r' T); [|exact Ht|reflexivity|reflexivity].
      simpl. rewrite Hd. replace (T + 65000 - T) with 65000 by lia. reflexivity.
    + rewrite (getRemainingTime_running _ r' T); [|exact Ht|reflexivity|reflexivity].
      simpl. rewrite Hd. replace (T + 130000 - T) with 130000 by lia. reflexivity.
    + intros d localNow Hdt. rewrite Ht in Hdt. split; intros Hnow.
      * rewrite (computeRemaining_running d r' T); [|exact Hdt|reflexivity|reflexivity].
        rewrite Hnow. simpl. rewrite Hd.
        replace (T + 65000 - T) with 65000 by lia. reflexivity.
      * rewrite (computeRemaining_running d r' T); [|exact Hdt|reflexivity|reflexivity].
        rewrite Hnow. simpl. rewrite Hd.
        replace (T + 130000 - T) with 130000 by lia. reflexivity.
Qed.

Lemma start_effect_witness :
  synced (act Start 1000 (world_of stopped_120 0))
    {| id := 1; duration := 120; start_time := Some 1000; status := running |}
  /\ Admin.getRemainingTime
       (Admin.tick 66000 (console (act Start 1000 (world_of stopped_120 0)))) = 55
  /\ synced (act Start 40000 (world_of running_100 0))
       {| id := 1; duration := 100; start_time := Some 40000; status := running |}.
Proof.
  split; [|split].
  - apply (proj1 (proj2 (start_effect _ _ 1000 (world_of_synced stopped_120 0)))).
    reflexivity.
  - exact (proj1 (proj2 (proj2 (proj2
             (start_effect _ _ 1000 (world_of_synced stopped_120 0)))) eq_refl eq_refl)).
  - apply (proj1 (proj2 (start_effect _ _ 40000 (world_of_synced running_100 0)))).
    reflexivity.
Defined.

(** C10: the update start issues names status and start_time and no
    duration, and the stored record keeps its id and its duration: a
    record of duration > 0 is started on exactly the duration it held. *)
Theorem start_frame (w : World) (r : StageTimer) (now : Z) :
  synced w r ->
  0 < duration r ->
  (exists u, Admin.startTimer (console w) now = Some u
             /\ set_duration (fields u) = None
             /\ set_status (fields u) = Some running
             /\ set_start_time (fields u) = Some (Some now))
  /\ (exists r', synced (act Start now w) r'
                 /\ duration r' = duration r /\ id r' = id r)
  /\ (forall k, k <> id r ->
        Store.lookup k (store (act Start now w)) = Store.lookup k (store w)).
Proof.
  intros Hw Hd.
  assert (Admin.startTimer (console w) now
          = Some {| fields := {| set_status := Some running;
                                 set_start_time := Some (Some now);
                                 set_duration := None |};
                    eq_id := id r |}) as Hcall.
  { rewrite (start_call _ r) by apply Hw.
    destruct (Z.leb_spec (duration r) 0); [lia | reflexivity]. }
  split; [|split].
  - eexists. split; [exact Hcall|]. repeat split.
  - eexists. split; [exact (start_synced w r now Hw Hd)|]. split; reflexivity.
  - intros k Hk. unfold act. simpl. rewrite Hcall. simpl.
    now apply lookup_update_ne.
Qed.

Lemma start_frame_witness :
  exists r', synced (act Start 1000 (world_of stopped_120 0)) r'
             /\ duration r' = 120 /\ id r' = 1.
Proof.
  exact (proj1 (proj2 (start_frame _ stopped_120 1000 (world_of_synced stopped_120 0)
                         ltac:(reflexivity)))).
Defined.

(** ** reset *)

(** C8: whatever the status, reset stores status = stopped and
    start_time = null and leaves the duration and the id of the record as
    they were; the update it issues names no duration, and no other record
    of the store is touched. *)
Theorem reset_frame (w : World) (r : StageTimer) (now : Z) :
  synced w r ->
  synced (act Reset now w)
    {| id := id r; duration := duration r; start_time := None; status := stopped |}
  /\ (exists u, Admin.resetTimer (console w) = Some u
                /\ set_duration (fields u) = None)
  /\ (forall k, k <> id r ->
        Store.lookup k (store (act Reset now w)) = Store.lookup k (store w)).
Proof.
  intros Hw.
  assert (Admin.resetTimer (console w)
          = Some {| fields := {| set_status := Some stopped;
                                 set_start_time := Some None;
                                 set_duration := None |};
                    eq_id := id r |}) as Hcall.
  { unfold Admin.resetTimer. now rewrite (proj1 Hw). }
  split; [|split].
  - pose proof (act_synced Reset now w r Hw) as H. simpl in H.
    rewrite Hcall in H. exact H.
  - eexists. split; [exact Hcall | reflexivity].
  - intros k Hk. unfold act. simpl. rewrite Hcall. simpl.
    now apply lookup_update_ne.
Qed.

Lemma reset_frame_witness :
  synced (act Reset 5000 (world_of running_100 0))
    {| id := 1; duration := 100; start_time := None; status := stopped |}.
Proof.
  exact (proj1 (reset_frame _ running_100 5000 (world_of_synced running_100 0))).
Defined.

(** ** setDuration *)

(** C3, as stated, fails: the text "-5" parses to -5 and is accepted, and
    the default record of 300 s is rewritten to a duration of -300. *)
Lemma setDuration_accepts_negative :
  JS.parseInt "-5" = Some (-5)
  /\ Store.lookup 1 (store (act (SetDuration "-5") 0 (world_of Admin.default_timer 0)))
     = Some {| id := 1; duration := -300; start_time := None; status := stopped |}
  /\ ~ setDuration_guard_spec.
Proof.
  assert (Store.lookup 1 (store (act (SetDuration "-5") 0 (world_of Admin.default_timer 0)))
          = Some {| id := 1; duration := -300; start_time := None; status := stopped |})
    as Hrow by (vm_compute; reflexivity).
  split; [reflexivity|]. split; [exact Hrow|].
  intros Hspec.
  destruct (Hspec _ Admin.default_timer "-5" 0 (world_of_synced Admin.default_timer 0))
    as (m & Hm & Hpos).
  - change (id Admin.default_timer) with 1. rewrite Hrow. discriminate.
  - vm_compute in Hm. injection Hm as <-. lia.
Qed.

(** C3 (amended): setDuration writes the record exactly when [parseInt]
    of the text is a number, negative ones included.  A text [parseInt]
    makes NaN of is rejected: the store and the record the console holds
    are as before.  An accepted text stores duration = minutes * 60 and
    leaves id, status and start_time as they were. *)
Theorem setDuration_effect (w : World) (r : StageTimer) (input : string) (now : Z) :
  synced w r ->
  (JS.parseInt input = None ->
     store (act (SetDuration input) now w) = store w
     /\ Admin.timer (console (act (SetDuration input) now w)) = Some r)
  /\ (forall minutes, JS.parseInt input = Some minutes ->
        synced (act (SetDuration input) now w)
          {| id := id r; duration := minutes * 60;
             start_time := start_time r; status := status r |}).
Proof.
  intros Hw. split.
  - intros Hp.
    destruct (act_no_call (SetDuration input) now w) as (Hs & Ht).
    + simpl. rewrite (updateDuration_call _ r) by apply Hw. now rewrite Hp.
    + split; [exact Hs|]. rewrite Ht. apply Hw.
  - intros minutes Hp. now apply setDuration_synced.
Qed.

Lemma setDuration_effect_witness :
  synced (act (SetDuration "5") 0 (world_of running_100 0))
    {| id := 1; duration := 300; start_time := Some 0; status := running |}
  /\ store (act (SetDuration "five") 0 (world_of running_100 0))
     = store (world_of running_100 0).
Proof.
  split.
  - exact (proj2 (setDuration_effect _ running_100 "5" 0 (world_of_synced running_100 0))
             5 eq_refl).
  - exact (proj1 (proj1 (setDuration_effect _ running_100 "five" 0
                           (world_of_synced running_100 0)) eq_refl)).
Defined.

(** ** The invariants under the controller's actions *)

(** C2, as stated, fails: from the default record, which meets both
    invariants, setDuration with the text "-5" leads to a record of
    duration -300. *)
Lemma setDuration_breaks_invariant :
  invariant Admin.default_timer
  /\ synced (act (SetDuration "-5") 0 (world_of Admin.default_timer 0))
       {| id := 1; duration := -300; start_time := None; status := stopped |}
  /\ ~ invariant {| id := 1; duration := -300; start_time := None; status := stopped |}.
Proof.
  split; [|split].
  - split; [vm_compute; discriminate|]. split; [intros [? [=]] | intros [=]].
  - exact (setDuration_synced _ Admin.default_timer "-5" 0 (-5)
             (world_of_synced Admin.default_timer 0) eq_refl).
  - intros [H _]. simpl in H. lia.
Qed.

(** One step of the machine keeps start_time set exactly when running,
    and keeps duration >= 0 unless it reads negative minutes. *)
Lemma act_invariant (x : Action) (now : Z) (w : World) (r : StageTimer) :
  synced w r ->
  invariant r ->
  exists r', synced (act x now w) r'
             /\ coherent r'
             /\ (minutes_not_negative x -> 0 <= duration r').
Proof.
  intros Hw [Hd Hc].
  pose proof (act_synced x now w r Hw) as H.
  eexists. split; [exact H|]. clear H.
  destruct x; simpl.
  - rewrite (start_call _ r) by apply Hw.
    destruct (duration r <=? 0); simpl.
    + split; [exact Hc | intros _; exact Hd].
    + split; [|intros _; exact Hd]. split; [reflexivity | intros _; simpl; eauto].
  - rewrite (pause_call _ r) by apply Hw.
    destruct (start_time r) as [T|] eqn:HT; simpl.
    + split; [|intros _; lia]. split; [intros [? [=]] | intros [=]].
    + split; [exact Hc | intros _; exact Hd].
  - unfold Admin.resetTimer. rewrite (proj1 Hw). simpl.
    split; [|intros _; exact Hd]. split; [intros [? [=]] | intros [=]].
  - rewrite (updateDuration_call _ r) by apply Hw.
    destruct (JS.parseInt minutes) as [m|]; simpl.
    + split; [exact Hc | lia].
    + split; [exact Hc | intros _; exact Hd].
Qed.

(** C2 (amended): from a record with duration >= 0 and start_time set
    exactly when running, start, pause and reset lead to such a record
    again; setDuration keeps start_time set exactly when running for every
    text, and keeps duration >= 0 when the text is rejected or the minutes
    read from it are not negative. *)
Theorem actions_preserve_invariant (now : Z) (w : World) (r : StageTimer) :
  synced w r ->
  invariant r ->
  (exists r', synced (act Start now w) r' /\ invariant r')
  /\ (exists r', synced (act Pause now w) r' /\ invariant r')
  /\ (exists r', synced (act Reset now w) r' /\ invariant r')
  /\ (forall input : string,
        exists r', synced (act (SetDuration input) now w) r'
                   /\ coherent r'
                   /\ ((JS.parseInt input = None
                        \/ exists minutes, JS.parseInt input = Some minutes
                                           /\ 0 <= minutes) ->
                       invariant r')).
Proof.
  intros Hw Hi.
  assert (forall x, minutes_not_negative x ->
            exists r', synced (act x now w) r' /\ invariant r') as Hbutton.
  { intros x Hx. destruct (act_invariant x now w r Hw Hi) as (r' & Hw' & Hc' & Hd').
    exists r'. split; [exact Hw'|]. split; auto. }
  split; [|split; [|split]]; try (apply Hbutton; exact I).
  intros input.
  destruct (act_invariant (SetDuration input) now w r Hw Hi) as (r' & Hw' & Hc' & Hd').
  exists r'. split; [exact Hw'|]. split; [exact Hc'|].
  intros Hin. split; [|exact Hc']. apply Hd'. simpl.
  destruct Hin as [-> | (m & -> & Hm)]; [exact I | exact Hm].
Qed.

Lemma actions_preserve_invariant_witness :
  (exists r', synced (act Pause 30000 (world_of running_100 0)) r' /\ invariant r')
  /\ (exists r', synced (act (SetDuration "5") 30000 (world_of running_100 0)) r'
                 /\ invariant r').
Proof.
  assert (invariant running_100) as Hi.
  { split; [vm_compute; discriminate|].
    split; [reflexivity | intros _; simpl; eauto]. }
  pose proof (actions_preserve_invariant 30000 _ running_100
                (world_of_synced running_100 0) Hi) as (_ & Hp & _ & Hs).
  split; [exact Hp|].
  destruct (Hs "5"%string) as (r' & Hw' & _ & Hi').
  exists r'. split; [exact Hw'|]. apply Hi'. right. exists 5. split; [reflexivity | lia].
Defined.

(** X21: the invariants along any run of the console: from a synced
    world on a record that meets them, every sequence of actions whose
    minutes are not negative ends in a synced world on a record that
    meets them. *)
Lemma run_preserves_invariant (xs : list (Action * Z)) (w : World) (r : StageTimer) :
  Forall (fun p => minutes_not_negative (fst p)) xs ->
  synced w r -> invariant r ->
  exists r', synced (run xs w) r' /\ invariant r'.
Proof.
  intros Hxs. revert w r.
  induction Hxs as [|[x now] rest Hx _ IH]; intros w r Hw Hi; simpl.
  - eauto.
  - destruct (act_invariant x now w r Hw Hi) as (r1 & Hw1 & Hc1 & Hd1).
    apply (IH _ r1 Hw1). split; auto.
Qed.

Lemma run_preserves_invariant_witness :
  exists r',
    synced (run [(SetDuration "2", 0); (Start, 1000); (Pause, 31000)]
              (world_of Admin.default_timer 0)) r'
    /\ invariant r'.
Proof.
  apply (run_preserves_invariant _ _ Admin.default_timer).
  - repeat constructor; simpl; vm_compute; discriminate.
  - apply world_of_synced.
  - split; [vm_compute; discriminate|]. split; [intros [? [=]] | intros [=]].
Defined.

(** ** pause followed by start *)

(** C7: let a running record be paused at reference time [t] and started
    again at once.  At every reference time [t' >= t] each projector
    reports, on the record so obtained, the value it would report on the
    untouched record or that value plus one second: no time is lost, and
    less than a second is gained. *)
Theorem pause_start_round_trip (w : World) (r : StageTimer) (T t t' : Z) :
  synced w r ->
  status r = running ->
  start_time r = Some T ->
  t <= t' ->
  let w' := act Start t (act Pause t w) in
  (Admin.getRemainingTime (Admin.tick t' (console w))
   <= Admin.getRemainingTime (Admin.tick t' (console w'))
   <= Admin.getRemainingTime (Admin.tick t' (console w)) + 1)
  /\ forall (d d' : Display.State) (localNow : Z),
       Display.timer d = Admin.timer (console w) ->
       Display.timer d' = Admin.timer (console w') ->
       Display.offsetMs d' = Display.offsetMs d ->
       localNow + Display.offsetMs d = t' ->
       Display.computeRemaining d localNow
       <= Display.computeRemaining d' localNow
       <= Display.computeRemaining d localNow + 1.
Proof.
  intros Hw Hs HT Hle w'.
  pose proof (pause_synced w r t T Hw HT) as Hp.
  set (rp := {| id := id r;
                duration := Z.max 0 (duration r - (t - T) / 1000);
                start_time := None; status := paused |}) in *.
  pose proof (floor_split (t - T) (t' - t)) as Hfl.
  replace (t - T + (t' - t)) with (t' - T) in Hfl by lia.
  assert (0 <= (t' - t) / 1000) as Hnn by (apply Z.div_pos; lia).
  pose proof (proj1 Hw) as Hw0.
  destruct (Z.leb_spec (duration rp) 0) as [Hz|Hpos].
  - (* the countdown had run out: start is refused, the record stays paused at 0 *)
    assert (w' = act Pause t w) as Hw'
      by (apply (start_refused _ rp t Hp); exact Hz).
    assert (Admin.timer (console w') = Some rp) as Ht' by (rewrite Hw'; apply Hp).
    simpl in Hz. split.
    + rewrite (getRemainingTime_running _ r T); [|exact Hw0|exact Hs|exact HT].
      rewrite (getRemainingTime_idle _ rp); [|exact Ht'|left; discriminate].
      simpl. lia.
    + intros d d' localNow Hd Hd' Ho Hnow. rewrite Hw0 in Hd. rewrite Ht' in Hd'.
      rewrite (computeRemaining_running d r T) by assumption.
      rewrite (computeRemaining_idle d' rp); [|exact Hd'|left; discriminate].
      rewrite Hnow. simpl. lia.
  - (* time is left: the record runs again from t on the remaining duration *)
    pose proof (start_synced _ rp t Hp Hpos) as Hst.
    fold w' in Hst. simpl in Hst, Hpos.
    set (rs := {| id := id r;
                  duration := Z.max 0 (duration r - (t - T) / 1000);
                  start_time := Some t; status := running |}) in *.
    pose proof (proj1 Hst) as Ht'.
    split.
    + rewrite (getRemainingTime_running _ r T); [|exact Hw0|exact Hs|exact HT].
      rewrite (getRemainingTime_running _ rs t); [|exact Ht'|reflexivity|reflexivity].
      simpl. lia.
    + intros d d' localNow Hd Hd' Ho Hnow. rewrite Hw0 in Hd. rewrite Ht' in Hd'.
      rewrite (computeRemaining_running d r T) by assumption.
      rewrite (computeRemaining_running d' rs t); [|exact Hd'|reflexivity|reflexivity].
      rewrite Ho, Hnow. simpl. lia.
Qed.

Lemma pause_start_round_trip_witness :
  Admin.getRemainingTime (Admin.tick 61000 (console (world_of running_100 0))) = 39
  /\ Admin.getRemainingTime
       (Admin.tick 61000
          (console (act Start 30500 (act Pause 30500 (world_of running_100 0))))) = 40
  /\ (39 <= 40 <= 39 + 1).
Proof.
  split; [reflexivity|]. split; [reflexivity|].
  exact (proj1 (pause_start_round_trip _ running_100 0 30500 61000
                  (world_of_synced running_100 0) eq_refl eq_refl ltac:(lia))).
Defined.

(** ** An absent record *)

Lemma fetchTimer_present (db : Store.t) (a : Admin.State) (r : StageTimer) :
  Store.outage db = None -> Store.lookup 1 db = Some r ->
  Admin.fetchTimer db a = (db, Admin.setLoading false (Admin.setTimer r a)).
Proof.
  unfold Store.lookup. intros Ho Hr.
  unfold Admin.fetchTimer, Store.select_single. now rewrite Ho, Hr.
Qed.

Lemma fetchTimer_absent (db : Store.t) (a : Admin.State) :
  Store.outage db = None -> Store.lookup 1 db = None ->
  Admin.fetchTimer db a
  = ({| Store.rows := <[1 := Admin.default_timer]> (Store.rows db);
        Store.outage := None |},
     Admin.setLoading false (Admin.setTimer Admin.default_timer a)).
Proof.
  unfold Store.lookup. intros Ho Hr.
  unfold Admin.fetchTimer, Store.select_single, Store.insert.
  rewrite Ho, Hr. simpl. now rewrite Hr.
Qed.

(** The display's fetch never writes to the store. *)
Lemma loadTimer_reads_only (db : Store.t) (d : Display.State) :
  fst (Display.loadTimer db d) = db.
Proof.
  unfold Display.loadTimer. now destruct (Store.select_single 1 db).
Qed.

(** C9: when the store answers and holds no record 1, the console's fetch
    inserts the default record (id 1, 300 s, stopped, no start_time) and
    goes on with it, raising no error; every later fetch finds that
    record and inserts nothing.  On any store that answers and holds a
    record 1, whatever that record is, the console's fetch leaves the
    store exactly as it is and goes on with the stored record: the default
    record is created only when none is found, hence once.  The display's
    fetch leaves every store as it is and, the record being absent, leaves
    the display's state as it is. *)
Theorem record_not_found_recovery (db : Store.t) (a : Admin.State) (d : Display.State) :
  Store.outage db = None ->
  Store.lookup 1 db = None ->
  let db1 := fst (Admin.fetchTimer db a) in
  let a1 := snd (Admin.fetchTimer db a) in
  Store.rows db1 = <[1 := Admin.default_timer]> (Store.rows db)
  /\ Admin.default_timer
     = {| id := 1; duration := 300; start_time := None; status := stopped |}
  /\ Admin.timer a1 = Some Admin.default_timer
  /\ Admin.error a1 = Admin.error a
  /\ Admin.loading a1 = false
  /\ (forall a', fst (Admin.fetchTimer db1 a') = db1
                 /\ Admin.timer (snd (Admin.fetchTimer db1 a')) = Some Admin.default_timer)
  /\ Display.loadTimer db d = (db, d)
  /\ Store.outage db1 = None
  /\ (forall (db' : Store.t) (a' : Admin.State) (r : StageTimer),
        Store.outage db' = None ->
        Store.lookup 1 db' = Some r ->
        Admin.fetchTimer db' a'
        = (db', Admin.setLoading false (Admin.setTimer r a')))
  /\ (forall (db' : Store.t) (d' : Display.State),
        fst (Display.loadTimer db' d') = db').
Proof.
  intros Ho Hr. simpl. rewrite (fetchTimer_absent db a Ho Hr). simpl.
  split; [reflexivity|]. split; [reflexivity|]. split; [reflexivity|].
  split; [reflexivity|]. split; [reflexivity|].
  split; [|split; [|split; [|split]]].
  - intros a'.
    rewrite (fetchTimer_present _ a' Admin.default_timer); [split; reflexivity | reflexivity |].
    unfold Store.lookup. simpl. apply lookup_insert_eq.
  - unfold Display.loadTimer, Store.select_single.
    unfold Store.lookup in Hr. now rewrite Ho, Hr.
  - reflexivity.
  - intros db' a' r Ho' Hr'. now apply fetchTimer_present.
  - apply loadTimer_reads_only.
Qed.

Lemma record_not_found_recovery_witness :
  Store.lookup 1 (fst (Admin.fetchTimer empty_store (Admin.init 0)))
  = Some {| id := 1; duration := 300; start_time := None; status := stopped |}
  /\ Admin.timer (snd (Admin.fetchTimer empty_store (Admin.init 0)))
     = Some Admin.default_timer
  /\ Display.loadTimer empty_store Display.init = (empty_store, Display.init)
  /\ Admin.fetchTimer (store (world_of running_100 0)) (Admin.init 0)
     = (store (world_of running_100 0),
        Admin.setLoading false (Admin.setTimer running_100 (Admin.init 0))).
Proof.
  pose proof (record_not_found_recovery empty_store (Admin.init 0) Display.init
                eq_refl eq_refl) as (Hrows & _ & Ht & _ & _ & _ & Hd & _ & Hkeep & _).
  split; [|split; [|split]].
  - unfold Store.lookup. rewrite Hrows. apply lookup_insert_eq.
  - exact Ht.
  - exact Hd.
  - apply Hkeep; reflexivity.
Defined.

(** When the store does not answer, the console reports the failure and
    inserts nothing; the display keeps its state. *)
Example fetchTimer_outage :
  let down := {| Store.rows := ∅;
                 Store.outage := Some {| code := "503"; message := "unavailable" |} |} in
  Admin.fetchTimer down (Admin.init 0)
  = (down, Admin.setLoading false
             (Admin.setError (Some "Failed to load timer: unavailable") (Admin.init 0)))
  /\ Display.loadTimer down Display.init = (down, Display.init).
Proof. split; reflexivity. Qed.

(** ** The scenarios of the spec, run on the default record *)

Example setDuration_twice :
  let w1 := act (SetDuration "5") 0 (world_of stopped_120 0) in
  let w2 := act (SetDuration "5") 1 w1 in
  Store.lookup 1 (store w1)
  = Some {| id := 1; duration := 300; start_time := None; status := stopped |}
  /\ store w2 = store w1.
Proof. vm_compute. split; reflexivity. Qed.

Example session :
  Store.lookup 1
    (store (run [(SetDuration "2", 0); (Start, 1000); (Pause, 31000);
                 (Start, 50000); (Reset, 60000)]
              (world_of Admin.default_timer 0)))
  = Some {| id := 1; duration := 90; start_time := None; status := stopped |}.
Proof. vm_compute. reflexivity. Qed.

(** ** Numerals: printing and reading *)

Lemma digit_cases (d : Z) :
  is_digit d ->
  d = 0 \/ d = 1 \/ d = 2 \/ d = 3 \/ d = 4 \/ d = 5 \/ d = 6 \/ d = 7 \/ d = 8 \/ d = 9.
Proof. unfold is_digit. lia. Qed.

Lemma digit_value_char (d : Z) :
  is_digit d -> JS.digit_value (JS.digit_char d) = Some d.
Proof.
  intros H. destruct (digit_cases d H) as [-> | [-> | [-> | [-> | [-> | [-> | [-> | [-> | [-> | ->]]]]]]]]];
    reflexivity.
Qed.

Lemma to_int_snoc (R : Z) (ds : list Z) (d : Z) :
  JS.to_int R (ds ++ [d]) = JS.to_int R ds * R + d.
Proof. unfold JS.to_int. now rewrite fold_left_app. Qed.

Lemma dec_digits_spec (f : nat) (n : Z) :
  0 <= n < 2 ^ Z.of_nat (S f) ->
  JS.to_int 10 (JS.dec_digits (S f) n) = n
  /\ Forall is_digit (JS.dec_digits (S f) n)
  /\ JS.dec_digits (S f) n <> [].
Proof.
  revert n. induction f as [|f IH]; intros n Hn.
  - change (2 ^ Z.of_nat 1) with 2 in Hn. simpl.
    destruct (Z.ltb_spec n 10); [|lia].
    split; [|split]; [unfold JS.to_int; simpl; lia | repeat constructor; unfold is_digit; lia | discriminate].
  - cbn [JS.dec_digits]. destruct (Z.ltb_spec n 10) as [Hlt|Hge].
    + split; [|split]; [unfold JS.to_int; simpl; lia | repeat constructor; unfold is_digit; lia | discriminate].
    + assert (0 <= n / 10 < 2 ^ Z.of_nat (S f)) as Hq.
      { rewrite (Nat2Z.inj_succ (S f)), Z.pow_succ_r in Hn by lia.
        split; [apply Z.div_pos; lia|]. apply Z.div_lt_upper_bound; lia. }
      destruct (IH _ Hq) as (Hv & Hd & Hne).
      change (JS.dec_digits (S f) (n / 10)) with
        (if n / 10 <? 10 then [n / 10] else JS.dec_digits f (n / 10 / 10) ++ [(n / 10) mod 10]) in *.
      pose proof (Z.mod_pos_bound n 10 ltac:(lia)).
      pose proof (Z.div_mod n 10 ltac:(lia)).
      split; [|split].
      * rewrite to_int_snoc, Hv. lia.
      * apply Forall_app. split; [exact Hd|]. repeat constructor; unfold is_digit; lia.
      * intros E. apply app_eq_nil in E. destruct E as [_ E]. discriminate.
Qed.

Lemma log2_fuel (n : Z) : 0 <= n -> 0 <= n < 2 ^ Z.of_nat (S (Z.to_nat (Z.log2 n))).
Proof.
  intros Hn. split; [exact Hn|].
  rewrite Nat2Z.inj_succ, Z2Nat.id by apply Z.log2_nonneg.
  destruct (Z.eq_dec n 0) as [->|Hz]; [reflexivity|].
  apply Z.log2_spec. lia.
Qed.

Lemma numeral_digits (n : Z) :
  JS.numeral n = string_of_list_ascii (map JS.digit_char (digits_of n)).
Proof. reflexivity. Qed.

Lemma digits_of_spec (n : Z) :
  0 <= n ->
  JS.to_int 10 (digits_of n) = n /\ Forall is_digit (digits_of n) /\ digits_of n <> [].
Proof. intros Hn. apply dec_digits_spec, log2_fuel, Hn. Qed.

Lemma append_empty (s : string) : (s +:+ EmptyString)%string = s.
Proof.
  induction s as [|c s IH]; [reflexivity|].
  change (String c (s +:+ EmptyString) = String c s). now rewrite IH.
Qed.

Lemma digits_prefix_text (ds : list Z) (rest : string) :
  Forall is_digit ds ->
  JS.digits_prefix 10 (text_of ds +:+ rest) = ds ++ JS.digits_prefix 10 rest.
Proof.
  induction 1 as [|d ds Hd _ IH]; [reflexivity|].
  change (text_of (d :: ds) +:+ rest)
    with (String (JS.digit_char d) (text_of ds +:+ rest)).
  cbn [JS.digits_prefix]. rewrite (digit_value_char d Hd).
  destruct (Z.ltb_spec d 10); [|unfold is_digit in Hd; lia].
  now rewrite IH.
Qed.

Lemma digit_char_head (d : Z) (s : string) :
  is_digit d ->
  JS.trim_start (String (JS.digit_char d) s) = String (JS.digit_char d) s
  /\ JS.strip_sign (String (JS.digit_char d) s) = (1, String (JS.digit_char d) s).
Proof.
  intros H. destruct (digit_cases d H) as [-> | [-> | [-> | [-> | [-> | [-> | [-> | [-> | [-> | ->]]]]]]]]];
    split; reflexivity.
Qed.

Lemma strip_prefix_digits (d d' : Z) (s : string) :
  is_digit d -> is_digit d' ->
  JS.strip_prefix (String (JS.digit_char d) (String (JS.digit_char d') s))
  = (10, String (JS.digit_char d) (String (JS.digit_char d') s)).
Proof.
  intros H H'.
  destruct (digit_cases d H) as [-> | [-> | [-> | [-> | [-> | [-> | [-> | [-> | [-> | ->]]]]]]]]];
    try reflexivity.
  destruct (digit_cases d' H') as [-> | [-> | [-> | [-> | [-> | [-> | [-> | [-> | [-> | ->]]]]]]]]];
    reflexivity.
Qed.

Lemma strip_prefix_digit_end (d : Z) :
  is_digit d ->
  JS.strip_prefix (String (JS.digit_char d) EmptyString)
  = (10, String (JS.digit_char d) EmptyString).
Proof.
  intros H. destruct (digit_cases d H) as [-> | [-> | [-> | [-> | [-> | [-> | [-> | [-> | [-> | ->]]]]]]]]];
    reflexivity.
Qed.

Lemma strip_prefix_text (ds : list Z) (rest : string) :
  Forall is_digit ds -> ds <> [] -> stop rest ->
  JS.strip_prefix (text_of ds +:+ rest) = (10, text_of ds +:+ rest).
Proof.
  intros Hds Hne Hstop.
  destruct Hds as [|d ds Hd Hds]; [congruence|].
  destruct Hds as [|d' ds' Hd' Hds'].
  - change (text_of [d] +:+ rest) with (String (JS.digit_char d) rest).
    destruct Hstop.
    + now apply strip_prefix_digit_end.
    + destruct (digit_cases d Hd) as [-> | [-> | [-> | [-> | [-> | [-> | [-> | [-> | [-> | ->]]]]]]]]];
        reflexivity.
  - change (text_of (d :: d' :: ds') +:+ rest)
      with (String (JS.digit_char d) (String (JS.digit_char d') (text_of ds' +:+ rest))).
    now apply strip_prefix_digits.
Qed.

Lemma parseInt_text (ds : list Z) (rest : string) :
  Forall is_digit ds -> ds <> [] -> stop rest ->
  JS.parseInt (text_of ds +:+ rest) = Some (JS.to_int 10 ds).
Proof.
  intros Hds Hne Hstop.
  pose proof (strip_prefix_text ds rest Hds Hne Hstop) as Hp.
  pose proof (digits_prefix_text ds rest Hds) as Hdp.
  assert (JS.digits_prefix 10 rest = []) as Hrest by (destruct Hstop; reflexivity).
  rewrite Hrest, app_nil_r in Hdp.
  unfold JS.parseInt.
  destruct ds as [|d ds]; [congruence|]. inversion Hds as [|? ? Hd Hds']; subst.
  change (text_of (d :: ds) +:+ rest)
    with (String (JS.digit_char d) (text_of ds +:+ rest)) in *.
  destruct (digit_char_head d (text_of ds +:+ rest) Hd) as [-> ->].
  rewrite Hp, Hdp.
  f_equal; lia.
Qed.

Lemma parseInt_minus_text (ds : list Z) :
  Forall is_digit ds -> ds <> [] ->
  JS.parseInt (String "-"%char (text_of ds)) = Some (- JS.to_int 10 ds).
Proof.
  intros Hds Hne.
  pose proof (strip_prefix_text ds EmptyString Hds Hne stop_end) as Hp.
  pose proof (digits_prefix_text ds EmptyString Hds) as Hdp.
  simpl in Hdp. rewrite app_nil_r in Hdp.
  rewrite append_empty in Hp, Hdp.
  unfold JS.parseInt. cbn [JS.trim_start]. 
  change (JS.is_white "-") with false. cbn iota.
  change (JS.strip_sign (String "-" (text_of ds))) with (-1, text_of ds).
  cbv beta iota. rewrite Hp, Hdp.
  destruct ds; [congruence|]. f_equal; lia.
Qed.

Lemma padStart_2_text (ds : list Z) :
  ds <> [] -> JS.padStart 2 "0" (text_of ds) = text_of (pad2 ds).
Proof.
  intros Hne. destruct ds as [|d [|d' ds]]; [congruence| |]; reflexivity.
Qed.

Lemma pad2_spec (ds : list Z) :
  Forall is_digit ds -> ds <> [] ->
  Forall is_digit (pad2 ds) /\ pad2 ds <> []
  /\ JS.to_int 10 (pad2 ds) = JS.to_int 10 ds
  /\ (2 <= length (pad2 ds))%nat.
Proof.
  intros Hds Hne. destruct ds as [|d [|d' ds]]; [congruence| |].
  - inversion Hds as [|? ? Hd _]; subst.
    split; [|split; [|split]].
    + constructor; [unfold is_digit; lia|]. constructor; [exact Hd | constructor].
    + discriminate.
    + unfold JS.to_int. simpl. lia.
    + simpl. lia.
  - split; [|split; [|split]].
    + exact Hds.
    + discriminate.
    + reflexivity.
    + simpl. lia.
Qed.

Lemma digits_of_small (n : Z) :
  0 <= n < 100 -> length (pad2 (digits_of n)) = 2%nat.
Proof.
  intros Hn. unfold digits_of. cbn [JS.dec_digits].
  destruct (Z.ltb_spec n 10) as [Hlt|Hge]; [reflexivity|].
  assert (3 <= Z.log2 n) as Hlog
    by (change 3 with (Z.log2 10); apply Z.log2_le_mono; lia).
  destruct (Z.to_nat (Z.log2 n)) as [|f] eqn:Hf; [lia|].
  cbn [JS.dec_digits].
  destruct (Z.ltb_spec (n / 10) 10) as [Hq|Hq]; [reflexivity|].
  exfalso. assert (n / 10 < 10) by (apply Z.div_lt_upper_bound; lia). lia.
Qed.

Lemma string_length_append (a b : string) :
  String.length (a +:+ b) = (String.length a + String.length b)%nat.
Proof.
  induction a as [|c a IH]; [reflexivity|].
  change (S (String.length (a +:+ b)) = S (String.length a + String.length b)).
  now rewrite IH.
Qed.

Lemma string_app_inj (a1 a2 b1 b2 : string) :
  String.length a1 = String.length a2 ->
  (a1 +:+ b1 = a2 +:+ b2)%string -> a1 = a2 /\ b1 = b2.
Proof.
  revert a2. induction a1 as [|c a1 IH]; intros [|c2 a2] Hlen H; try discriminate.
  - split; [reflexivity | exact H].
  - change (String c (a1 +:+ b1) = String c2 (a2 +:+ b2)) in H.
    injection H as -> H. injection Hlen as Hlen.
    destruct (IH a2 Hlen H) as [-> ->]. split; reflexivity.
Qed.

Lemma text_of_length (ds : list Z) : String.length (text_of ds) = length ds.
Proof.
  induction ds as [|d ds IH]; [reflexivity|].
  change (S (String.length (text_of ds)) = S (length ds)). now rewrite IH.
Qed.

Lemma String_of_nonneg (n : Z) : 0 <= n -> JS.String_of n = text_of (digits_of n).
Proof.
  intros Hn. unfold JS.String_of. destruct (Z.ltb_spec n 0); [lia | reflexivity].
Qed.

Lemma fmt_text (sec : Z) :
  Display.fmt sec = (text_of (minutes_digits sec) +:+ ":" +:+ text_of (seconds_digits sec))%string.
Proof.
  unfold Display.fmt, minutes_digits, seconds_digits.
  assert ((if sec <? 0 then 0 else sec) = Z.max 0 sec) as ->
    by (destruct (Z.ltb_spec sec 0); lia).
  set (t := Z.max 0 sec). assert (0 <= t) as Ht by lia.
  rewrite (Math_floor_div t 60). unfold JS.rem. rewrite Z.rem_mod_nonneg by lia.
  pose proof (Z.mod_pos_bound t 60 ltac:(lia)).
  assert (0 <= t / 60) by (apply Z.div_pos; lia).
  rewrite !String_of_nonneg by lia.
  rewrite !padStart_2_text by (apply digits_of_spec; lia).
  reflexivity.
Qed.

Lemma formatTime_fmt (sec : Z) : Admin.formatTime sec = Display.fmt sec.
Proof. reflexivity. Qed.

Lemma minutes_digits_spec (sec : Z) :
  Forall is_digit (minutes_digits sec) /\ minutes_digits sec <> []
  /\ JS.to_int 10 (minutes_digits sec) = Z.max 0 sec / 60
  /\ (2 <= length (minutes_digits sec))%nat.
Proof.
  assert (0 <= Z.max 0 sec / 60) as H by (apply Z.div_pos; lia).
  destruct (digits_of_spec _ H) as (Hv & Hd & Hne).
  destruct (pad2_spec _ Hd Hne) as (Hd' & Hne' & Hv' & Hl).
  unfold minutes_digits. split; [exact Hd'|]. split; [exact Hne'|].
  split; [congruence | exact Hl].
Qed.

Lemma seconds_digits_spec (sec : Z) :
  Forall is_digit (seconds_digits sec) /\ seconds_digits sec <> []
  /\ JS.to_int 10 (seconds_digits sec) = Z.max 0 sec mod 60
  /\ length (seconds_digits sec) = 2%nat.
Proof.
  pose proof (Z.mod_pos_bound (Z.max 0 sec) 60 ltac:(lia)) as H.
  destruct (digits_of_spec (Z.max 0 sec mod 60) ltac:(lia)) as (Hv & Hd & Hne).
  destruct (pad2_spec _ Hd Hne) as (Hd' & Hne' & Hv' & Hl).
  unfold seconds_digits. split; [exact Hd'|]. split; [exact Hne'|].
  split; [congruence|]. apply digits_of_small. lia.
Qed.

Lemma parseInt_String_of (n : Z) : JS.parseInt (JS.String_of n) = Some n.
Proof.
  unfold JS.String_of. destruct (Z.ltb_spec n 0) as [Hneg|Hpos].
  - destruct (digits_of_spec (- n) ltac:(lia)) as (Hv & Hd & Hne).
    change (JS.numeral (- n)) with (text_of (digits_of (- n))).
    rewrite (parseInt_minus_text _ Hd Hne), Hv. f_equal. lia.
  - destruct (digits_of_spec n Hpos) as (Hv & Hd & Hne).
    change (JS.numeral n) with (text_of (digits_of n)).
    rewrite <- (append_empty (text_of (digits_of n))).
    rewrite (parseInt_text _ _ Hd Hne stop_end). now rewrite Hv.
Qed.

Lemma is_decimal_text (ds : list Z) :
  Forall is_digit ds -> is_decimal (text_of ds) = true.
Proof.
  induction 1 as [|d ds Hd _ IH]; [reflexivity|].
  change (text_of (d :: ds)) with (String (JS.digit_char d) (text_of ds)).
  cbn [is_decimal]. rewrite IH.
  destruct (digit_cases d Hd) as [-> | [-> | [-> | [-> | [-> | [-> | [-> | [-> | [-> | ->]]]]]]]]];
    reflexivity.
Qed.

(** From 10 on a numeral has two digits or more and is not padded. *)
Lemma pad2_long (n : Z) : 10 <= n -> pad2 (digits_of n) = digits_of n.
Proof.
  intros Hn. unfold digits_of. cbn [JS.dec_digits].
  destruct (Z.ltb_spec n 10) as [Hlt|_]; [lia|].
  assert (3 <= Z.log2 n) as Hlog
    by (change 3 with (Z.log2 10); apply Z.log2_le_mono; lia).
  destruct (Z.to_nat (Z.log2 n)) as [|f] eqn:Hf; [lia|].
  destruct (JS.dec_digits (S f) (n / 10)) as [|x l] eqn:Hq.
  - exfalso. cbn [JS.dec_digits] in Hq.
    destruct (n / 10 <? 10); [discriminate|].
    apply app_eq_nil in Hq. destruct Hq as [_ Hq]. discriminate.
  - destruct l; reflexivity.
Qed.

(** X1: a formatted time is a minutes field, a colon and a seconds field.
    Both fields are made of the characters 0 to 9 only; the seconds field
    has exactly two of them and the minutes field at least two, exactly
    two under 100 minutes (the text then has five characters), and from
    10 minutes on the minutes field is the plain numeral of the minutes,
    not padded.  Read back as numbers the fields are the whole minutes and
    the remaining seconds of the time, a negative time counting as 0.
    Both pages format alike. *)
Theorem fmt_fields (sec : Z) :
  exists mm ss : string,
    Display.fmt sec = (mm +:+ ":" +:+ ss)%string
    /\ Admin.formatTime sec = Display.fmt sec
    /\ (2 <= String.length mm)%nat
    /\ String.length ss = 2%nat
    /\ JS.parseInt mm = Some (Z.max 0 sec / 60)
    /\ JS.parseInt ss = Some (Z.max 0 sec mod 60)
    /\ JS.parseInt (Display.fmt sec) = Some (Z.max 0 sec / 60)
    /\ (sec < 6000 -> String.length (Display.fmt sec) = 5%nat)
    /\ is_decimal mm = true
    /\ is_decimal ss = true
    /\ (sec < 6000 -> String.length mm = 2%nat)
    /\ (600 <= sec -> mm = JS.String_of (sec / 60)).
Proof.
  destruct (minutes_digits_spec sec) as (Hmd & Hmne & Hmv & Hml).
  destruct (seconds_digits_spec sec) as (Hsd & Hsne & Hsv & Hsl).
  assert (sec < 6000 -> length (minutes_digits sec) = 2%nat) as Hm2.
  { intros Hlt. unfold minutes_digits. apply digits_of_small.
    split; [apply Z.div_pos; lia | apply Z.div_lt_upper_bound; lia]. }
  exists (text_of (minutes_digits sec)), (text_of (seconds_digits sec)).
  split; [apply fmt_text|]. split; [reflexivity|].
  split; [now rewrite text_of_length|]. split; [now rewrite text_of_length|].
  split; [|split; [|split; [|split; [|split; [|split; [|split]]]]]].
  - rewrite <- (append_empty (text_of _)).
    now rewrite (parseInt_text _ _ Hmd Hmne stop_end), Hmv.
  - rewrite <- (append_empty (text_of _)).
    now rewrite (parseInt_text _ _ Hsd Hsne stop_end), Hsv.
  - rewrite fmt_text.
    pose proof (parseInt_text _ _ Hmd Hmne (stop_colon (text_of (seconds_digits sec)))) as P.
    rewrite Hmv in P. exact P.
  - intros Hlt. rewrite fmt_text, !string_length_append, !text_of_length, Hsl.
    now rewrite (Hm2 Hlt).
  - now apply is_decimal_text.
  - now apply is_decimal_text.
  - intros Hlt. rewrite text_of_length. exact (Hm2 Hlt).
  - intros Hge. unfold minutes_digits.
    replace (Z.max 0 sec) with sec by lia.
    assert (10 <= sec / 60) as Hq by (apply Z.div_le_lower_bound; lia).
    rewrite (pad2_long _ Hq). symmetry. apply String_of_nonneg. lia.
Qed.

(** X2: two times are formatted alike only when they are the same time,
    negative times counting as 0: the text determines the time shown. *)
Theorem fmt_injective (a b : Z) :
  Display.fmt a = Display.fmt b -> Z.max 0 a = Z.max 0 b.
Proof.
  intros H. rewrite !fmt_text in H.
  destruct (minutes_digits_spec a) as (Hmda & Hmnea & Hmva & _).
  destruct (minutes_digits_spec b) as (Hmdb & Hmneb & Hmvb & _).
  destruct (seconds_digits_spec a) as (Hsda & Hsnea & Hsva & Hsla).
  destruct (seconds_digits_spec b) as (Hsdb & Hsneb & Hsvb & Hslb).
  assert (String.length (text_of (minutes_digits a))
          = String.length (text_of (minutes_digits b))) as Hlen.
  { apply (f_equal String.length) in H.
    rewrite !string_length_append, !text_of_length, Hsla, Hslb in H.
    rewrite !text_of_length. simpl in H. lia. }
  destruct (string_app_inj _ _ _ _ Hlen H) as [Hm Hs].
  injection Hs as Hs.
  change (text_of (seconds_digits a) = text_of (seconds_digits b)) in Hs.
  assert (Z.max 0 a / 60 = Z.max 0 b / 60) as Hq.
  { pose proof (parseInt_text _ EmptyString Hmda Hmnea stop_end) as Pa.
    pose proof (parseInt_text _ EmptyString Hmdb Hmneb stop_end) as Pb.
    rewrite Hm in Pa. rewrite Pa in Pb. injection Pb as Pb. lia. }
  assert (Z.max 0 a mod 60 = Z.max 0 b mod 60) as Hr.
  { pose proof (parseInt_text _ EmptyString Hsda Hsnea stop_end) as Pa.
    pose proof (parseInt_text _ EmptyString Hsdb Hsneb stop_end) as Pb.
    rewrite Hs in Pa. rewrite Pa in Pb. injection Pb as Pb. lia. }
  rewrite (Z.div_mod (Z.max 0 a) 60), (Z.div_mod (Z.max 0 b) 60) by lia.
  now rewrite Hq, Hr.
Qed.

Lemma fmt_injective_witness : Z.max 0 (-3) = Z.max 0 (-7).
Proof. apply fmt_injective. reflexivity. Defined.

Example fmt_samples :
  Display.fmt 125 = "02:05"%string /\ Display.fmt (-4) = "00:00"%string
  /\ Display.fmt 6000 = "100:00"%string /\ Admin.formatTime 3599 = "59:59"%string.
Proof. repeat split. Qed.

(** ** Typing a number of minutes *)

(** X3: typing the decimal numeral of any integer [m], negative ones
    included, and pressing Update stores duration = m * 60 and nothing
    else; the input box is emptied, so that pressing Update again without
    typing is refused and issues no update. *)
Theorem setDuration_numeral (w : World) (r : StageTimer) (m now : Z) :
  synced w r ->
  let w' := act (SetDuration (JS.String_of m)) now w in
  synced w' {| id := id r; duration := m * 60;
               start_time := start_time r; status := status r |}
  /\ Admin.minutesInput (console w') = EmptyString
  /\ Admin.updateDuration (console w') = (None, console w').
Proof.
  intros Hw w'.
  pose proof (setDuration_synced w r (JS.String_of m) now m Hw (parseInt_String_of m)) as Hs.
  fold w' in Hs.
  assert (Admin.minutesInput (console w') = EmptyString) as Hbox.
  { unfold w', act. simpl.
    pose proof (updateDuration_call (console w) r (JS.String_of m) (proj1 Hw)) as Hc.
    rewrite parseInt_String_of in Hc.
    unfold Admin.updateDuration in *. simpl in *. rewrite (proj1 Hw) in *.
    rewrite parseInt_String_of in *. simpl.
    destruct (Store.lookup (id r) _); reflexivity. }
  split; [exact Hs|]. split; [exact Hbox|].
  unfold Admin.updateDuration. rewrite (proj1 Hs), Hbox. reflexivity.
Qed.

Lemma setDuration_numeral_witness :
  synced (act (SetDuration (JS.String_of 7)) 0 (world_of running_100 0))
    {| id := 1; duration := 420; start_time := Some 0; status := running |}.
Proof.
  exact (proj1 (setDuration_numeral _ running_100 7 0 (world_of_synced running_100 0))).
Defined.

(** ** The countdown over time *)

Lemma div_1000_step (x delta : Z) :
  0 <= delta <= 1000 -> x / 1000 <= (x + delta) / 1000 <= x / 1000 + 1.
Proof.
  intros Hd. split.
  - apply Z.div_le_mono; lia.
  - replace (x / 1000 + 1) with ((x + 1 * 1000) / 1000)
      by (rewrite Z.div_add; lia).
    apply Z.div_le_mono; lia.
Qed.

(** X4: while the record and the offset do not change, the remaining
    time a page shows never goes up as its clock advances, on the display
    and on the console alike, and on the display it goes down by at most
    one over an advance of at most one second. *)
Theorem computeRemaining_monotone (d : Display.State) (a : Admin.State) (now1 now2 : Z) :
  now1 <= now2 ->
  Display.computeRemaining d now2 <= Display.computeRemaining d now1
  /\ (now2 - now1 <= 1000 ->
        Display.computeRemaining d now1 - 1 <= Display.computeRemaining d now2)
  /\ Admin.getRemainingTime (Admin.tick now2 a)
     <= Admin.getRemainingTime (Admin.tick now1 a).
Proof.
  intros Hle. split; [|split].
  - unfold Display.computeRemaining.
    destruct (Display.timer d) as [r|]; [|lia].
    destruct (status r), (start_time r) as [T|]; try lia.
    rewrite !Math_floor_div. unfold JS.Math_max.
    assert ((now1 + Display.offsetMs d - T) / 1000 <= (now2 + Display.offsetMs d - T) / 1000)
      by (apply Z.div_le_mono; lia).
    lia.
  - intros Hstep. unfold Display.computeRemaining.
    destruct (Display.timer d) as [r|]; [|lia].
    destruct (status r), (start_time r) as [T|]; try lia.
    rewrite !Math_floor_div. unfold JS.Math_max.
    pose proof (div_1000_step (now1 + Display.offsetMs d - T) (now2 - now1) ltac:(lia)) as H1.
    replace (now1 + Display.offsetMs d - T + (now2 - now1))
      with (now2 + Display.offsetMs d - T) in H1 by lia.
    lia.
  - unfold Admin.getRemainingTime, Admin.tick, Admin.setCurrentTime.
    cbn [Admin.timer Admin.currentTime].
    destruct (Admin.timer a) as [r|]; [|lia].
    destruct (status r), (start_time r) as [T|]; try lia.
    rewrite !Math_floor_div. unfold JS.Math_max.
    assert ((now1 - T) / 1000 <= (now2 - T) / 1000) by (apply Z.div_le_mono; lia).
    lia.
Qed.

Lemma computeRemaining_monotone_witness :
  Display.computeRemaining (display_of running_100 0) 30500
  <= Display.computeRemaining (display_of running_100 0) 30000.
Proof.
  apply (computeRemaining_monotone (display_of running_100 0)
           (console (world_of running_100 0)) 30000 30500).
  lia.
Defined.

(** X5: for a running record started at [T], the display shows 0 exactly
    from the reference instant T + duration * 1000 on, and it shows no
    more than the duration exactly when its corrected clock is not behind
    [T]: a display whose clock is behind the start shows more than the
    duration. *)
Theorem computeRemaining_expiry (d : Display.State) (r : StageTimer) (T now : Z) :
  Display.timer d = Some r ->
  status r = running ->
  start_time r = Some T ->
  (Display.computeRemaining d now = 0
   <-> T + duration r * 1000 <= now + Display.offsetMs d)
  /\ (0 <= duration r ->
        (Display.computeRemaining d now <= duration r
         <-> T <= now + Display.offsetMs d)).
Proof.
  intros Ht Hs HT. rewrite (computeRemaining_running d r T now Ht Hs HT).
  set (x := now + Display.offsetMs d - T).
  pose proof (Z.div_mod x 1000 ltac:(lia)).
  pose proof (Z.mod_pos_bound x 1000 ltac:(lia)).
  split.
  - split; intros H1; subst x; lia.
  - intros Hd. split; intros H1; subst x; lia.
Qed.

Lemma computeRemaining_expiry_witness :
  Display.computeRemaining (display_of running_100 0) 100000 = 0.
Proof.
  apply (computeRemaining_expiry (display_of running_100 0) running_100 0 100000
           eq_refl eq_refl eq_refl).
  vm_compute. discriminate.
Defined.

(** X6: the two projectors agree: on the same record, of duration >= 0,
    the console whose clock reads what the display's corrected clock
    reads shows the same remaining time. *)
Theorem projectors_agree (d : Display.State) (a : Admin.State) (r : StageTimer) (now : Z) :
  Display.timer d = Some r ->
  Admin.timer a = Some r ->
  0 <= duration r ->
  Admin.currentTime a = now + Display.offsetMs d ->
  Admin.getRemainingTime a = Display.computeRemaining d now.
Proof.
  intros Hd Ha Hpos Hc.
  unfold Admin.getRemainingTime, Display.computeRemaining.
  rewrite Hd, Ha, Hc.
  destruct (status r), (start_time r); unfold JS.Math_max; try reflexivity; lia.
Qed.

Lemma projectors_agree_witness :
  Admin.getRemainingTime (Admin.tick 30050 (console (world_of running_100 0)))
  = Display.computeRemaining (display_of running_100 50) 30000.
Proof.
  apply (projectors_agree _ _ running_100); [reflexivity | reflexivity | | reflexivity].
  vm_compute. discriminate.
Defined.

(** ** The clock probe *)

(** X7: let the server's clock be ahead of the display's by [theta], and
    let the server read its clock, for the answer of [GET /api/time], at
    some moment between the display's two readings [t0] and [t1].  Then
    the offset the display stores is off [theta] by at most half the
    round trip, rounded up, and it is [theta] itself when the server's
    reading falls in the middle. *)
Theorem computeOffset_error (t0 ts t1 theta : Z) (d : Display.State) :
  t0 <= ts <= t1 ->
  let offset :=
    Display.offsetMs
      (Display.computeOffset t0 t1 (Api.now_ms (Api.GET (ts + theta))) d) in
  2 * Z.abs (offset - theta) <= t1 - t0 + 1
  /\ (ts - t0 = t1 - ts -> offset = theta).
Proof.
  intros Hts. simpl. rewrite Math_round_half.
  pose proof (Z.div_mod (t0 + t1 + 1) 2 ltac:(lia)).
  pose proof (Z.mod_pos_bound (t0 + t1 + 1) 2 ltac:(lia)).
  split; [lia|]. intros Hmid. lia.
Qed.

Lemma computeOffset_error_witness :
  Display.offsetMs
    (Display.computeOffset 1000 1200 (Api.now_ms (Api.GET (1100 + 1050))) Display.init)
  = 1050.
Proof.
  apply (computeOffset_error 1000 1100 1200 1050 Display.init); lia.
Defined.

(** ** The display along its events *)

Lemma handle_remaining (e : Display.Event) (d : Display.State) :
  0 <= Display.remaining d -> 0 <= Display.remaining (Display.handle e d).
Proof.
  intros H. destruct e; simpl; try exact H.
  - unfold Display.computeRemaining.
    destruct (Display.timer d) as [r|]; [|lia].
    destruct (status r), (start_time r); unfold JS.Math_max; lia.
  - unfold Display.loadTimer. now destruct (Store.select_single 1 db).
Qed.

Lemma handle_all_remaining (es : list Display.Event) (d : Display.State) :
  0 <= Display.remaining d -> 0 <= Display.remaining (Display.handle_all es d).
Proof.
  revert d. induction es as [|e es IH]; intros d H; [exact H|].
  apply IH, handle_remaining, H.
Qed.

(** X8: whatever ticks, change events, fetch answers and probe answers
    the display receives, in whatever order, the time it shows is never
    negative; its digits are white exactly above 60 seconds, steady red
    exactly at 0 and pulsing red in between, and the glow is drawn exactly
    from 1 to 10 seconds. *)
Theorem display_never_negative (es : list Display.Event) :
  let shown := Display.remaining (Display.handle_all es Display.init) in
  0 <= shown
  /\ (Display.digit_style shown = Display.White <-> 60 < shown)
  /\ (Display.digit_style shown = Display.RedSteady <-> shown = 0)
  /\ (Display.digit_style shown = Display.RedPulse <-> 1 <= shown <= 60)
  /\ (Display.glow shown = true <-> 1 <= shown <= 10).
Proof.
  simpl. pose proof (handle_all_remaining es Display.init ltac:(simpl; lia)) as H.
  set (shown := Display.remaining (Display.handle_all es Display.init)) in *.
  unfold Display.digit_style, Display.glow.
  destruct (Z.leb_spec shown 60), (Z.ltb_spec 0 shown), (Z.eqb_spec shown 0),
    (Z.leb_spec shown 10); simpl;
    (split; [lia|]); repeat split; intros; try discriminate; try lia.
Qed.

(** ** The Start button *)

Lemma render_panel (a : Admin.State) (r : StageTimer) :
  Admin.timer a = Some r ->
  match Admin.render a with
  | Admin.Panel p =>
      Admin.start_disabled p = (duration r <=? 0) || bool_decide (status r = running)
  | _ => True
  end.
Proof.
  intros Ht. unfold Admin.render. rewrite Ht.
  destruct (Admin.loading a); [exact I|].
  destruct (Admin.truthy (Admin.error a)); [exact I | reflexivity].
Qed.

(** X9: the Start button is disabled while the record is running or has
    no time left: a press on it then changes nothing, so that through the
    panel a running countdown is never rebased.  When the press is
    possible, the record was not running, had time left, and is started
    on its duration at the instant of the press. *)
Theorem press_start (w : World) (r : StageTimer) (now : Z) :
  synced w r ->
  (status r = running \/ duration r <= 0 -> press Start now w = w)
  /\ (pressable Start (console w) = true ->
        status r <> running /\ 0 < duration r
        /\ synced (press Start now w)
             {| id := id r; duration := duration r;
                start_time := Some now; status := running |}).
Proof.
  intros Hw. pose proof (render_panel (console w) r (proj1 Hw)) as Hp.
  unfold press, pressable.
  destruct (Admin.render (console w)) as [| | |p]; try (split; [reflexivity | discriminate]).
  rewrite Hp. split.
  - intros [Hs | Hd].
    + rewrite (bool_decide_eq_true_2 _ Hs), orb_true_r. reflexivity.
    + destruct (Z.leb_spec (duration r) 0); [reflexivity | lia].
  - intros Hen.
    destruct (Z.leb_spec (duration r) 0) as [|Hpos]; [discriminate|].
    destruct (bool_decide (status r = running)) eqn:Hb; [discriminate|].
    apply bool_decide_eq_false in Hb. simpl.
    split; [exact Hb|]. split; [exact Hpos|]. now apply start_synced.
Qed.

Lemma press_start_witness :
  press Start 5000 (world_of running_100 0) = world_of running_100 0
  /\ synced (press Start 5000 (world_of stopped_120 0))
       {| id := 1; duration := 120; start_time := Some 5000; status := running |}.
Proof.
  split.
  - apply (proj1 (press_start _ running_100 5000 (world_of_synced running_100 0))).
    left. reflexivity.
  - apply (proj2 (press_start _ stopped_120 5000 (world_of_synced stopped_120 0))).
    reflexivity.
Defined.

(** ** How the controls compose *)

Lemma reset_synced (w : World) (r : StageTimer) (now : Z) :
  synced w r ->
  synced (act Reset now w)
    {| id := id r; duration := duration r; start_time := None; status := stopped |}.
Proof.
  intros Hw. pose proof (act_synced Reset now w r Hw) as H. simpl in H.
  unfold Admin.resetTimer in H. rewrite (proj1 Hw) in H. exact H.
Qed.

(** X10: reset and pause are idempotent: a second reset leaves the record
    the first one made, and a second pause is refused and leaves the
    world as it is, whatever the clock reads. *)
Theorem reset_pause_idempotent (w : World) (r : StageTimer) (now1 now2 : Z) :
  synced w r ->
  synced (act Reset now2 (act Reset now1 w))
    {| id := id r; duration := duration r; start_time := None; status := stopped |}
  /\ act Pause now2 (act Pause now1 w) = act Pause now1 w.
Proof.
  intros Hw. split.
  - exact (reset_synced _ _ now2 (reset_synced w r now1 Hw)).
  - destruct (start_time r) as [T|] eqn:HT.
    + apply (pause_refused _ _ now2 (pause_synced w r now1 T Hw HT)). reflexivity.
    + rewrite (pause_refused w r now1 Hw HT). now apply (pause_refused w r).
Qed.

Lemma reset_pause_idempotent_witness :
  act Pause 40000 (act Pause 30000 (world_of running_100 0))
  = act Pause 30000 (world_of running_100 0).
Proof.
  exact (proj2 (reset_pause_idempotent _ running_100 30000 40000
                  (world_of_synced running_100 0))).
Defined.

(** X11: a record with time left that is started at [t] and paused at
    [t'] is left paused on duration - floor((t' - t)/1000), floored at
    0: the whole seconds run are taken off; paused within the second of
    its start, it keeps its duration. *)
Theorem start_then_pause (w : World) (r : StageTimer) (t t' : Z) :
  synced w r ->
  0 < duration r ->
  synced (act Pause t' (act Start t w))
    {| id := id r;
       duration := Z.max 0 (duration r - (t' - t) / 1000);
       start_time := None; status := paused |}
  /\ (t <= t' < t + 1000 ->
        synced (act Pause t' (act Start t w))
          {| id := id r; duration := duration r;
             start_time := None; status := paused |}).
Proof.
  intros Hw Hd.
  pose proof (pause_synced _ _ t' t (start_synced w r t Hw Hd) eq_refl) as H.
  simpl in H. split; [exact H|].
  intros Ht. replace ((t' - t) / 1000) with 0 in H
    by (symmetry; apply Z.div_small; lia).
  replace (Z.max 0 (duration r - 0)) with (duration r) in H by lia. exact H.
Qed.

Lemma start_then_pause_witness :
  synced (act Pause 46000 (act Start 1000 (world_of stopped_120 0)))
    {| id := 1; duration := 75; start_time := None; status := paused |}.
Proof.
  exact (proj1 (start_then_pause _ stopped_120 1000 46000
                  (world_of_synced stopped_120 0) ltac:(reflexivity))).
Defined.

(** X12: start, pause and reset never lengthen the countdown: from a
    record of duration >= 0 whose start_time, if any, is not after the
    clock reading, each leads to a record whose duration is between 0
    and the duration before. *)
Theorem buttons_never_lengthen (x : Action) (w : World) (r : StageTimer) (now : Z) :
  synced w r ->
  (forall input, x <> SetDuration input) ->
  0 <= duration r ->
  (forall T, start_time r = Some T -> T <= now) ->
  exists r', synced (act x now w) r' /\ 0 <= duration r' <= duration r.
Proof.
  intros Hw Hx Hd Hclock.
  pose proof (act_synced x now w r Hw) as H.
  eexists. split; [exact H|]. clear H.
  destruct x; simpl.
  - rewrite (start_call _ r) by apply Hw.
    destruct (duration r <=? 0); simpl; lia.
  - rewrite (pause_call _ r) by apply Hw.
    destruct (start_time r) as [T|] eqn:HT; simpl; [|lia].
    specialize (Hclock T eq_refl).
    assert (0 <= (now - T) / 1000) by (apply Z.div_pos; lia). lia.
  - unfold Admin.resetTimer. rewrite (proj1 Hw). simpl. lia.
  - now destruct (Hx minutes).
Qed.

Lemma buttons_never_lengthen_witness :
  exists r', synced (act Pause 30000 (world_of running_100 0)) r'
             /\ 0 <= duration r' <= 100.
Proof.
  apply (buttons_never_lengthen Pause _ running_100 30000 (world_of_synced running_100 0)).
  - discriminate.
  - vm_compute. discriminate.
  - intros T [= <-]. lia.
Defined.

(** A pause taken by a clock that is behind the start lengthens the
    countdown: the elapsed time is negative and is not floored. *)
Example pause_behind_start :
  synced (act Pause 0 (world_of {| id := 1; duration := 100; start_time := Some 30000;
                                   status := running |} 0))
    {| id := 1; duration := 130; start_time := None; status := paused |}.
Proof.
  exact (pause_synced _ _ 0 30000
           (world_of_synced {| id := 1; duration := 100; start_time := Some 30000;
                               status := running |} 0) eq_refl).
Qed.

(** X13: a new duration set while the record runs does not move the
    start: the console then shows the new duration less the time already
    run, floored at 0. *)
Theorem retarget_while_running (w : World) (r : StageTimer) (input : string)
    (minutes T now t : Z) :
  synced w r ->
  status r = running ->
  start_time r = Some T ->
  JS.parseInt input = Some minutes ->
  Admin.getRemainingTime (Admin.tick t (console (act (SetDuration input) now w)))
  = Z.max 0 (minutes * 60 - (t - T) / 1000).
Proof.
  intros Hw Hs HT Hp.
  pose proof (setDuration_synced w r input now minutes Hw Hp) as (Ht & _).
  rewrite (getRemainingTime_running _
             {| id := id r; duration := minutes * 60;
                start_time := start_time r; status := status r |} T);
    [reflexivity | exact Ht | exact Hs | exact HT].
Qed.

Lemma retarget_while_running_witness :
  Admin.getRemainingTime
    (Admin.tick 90000 (console (act (SetDuration "2") 60000 (world_of running_100 0))))
  = 30.
Proof.
  exact (retarget_while_running _ running_100 "2" 2 0 60000 90000
           (world_of_synced running_100 0) eq_refl eq_refl eq_refl).
Defined.

(** X14: a countdown that had run out when it was paused is left paused
    on duration 0, and cannot be started again: the Start button is
    disabled and [startTimer] is refused, at any later time. *)
Theorem expired_cannot_restart (w : World) (r : StageTimer) (T t t' : Z) :
  synced w r ->
  start_time r = Some T ->
  T + duration r * 1000 <= t ->
  synced (act Pause t w)
    {| id := id r; duration := 0; start_time := None; status := paused |}
  /\ act Start t' (act Pause t w) = act Pause t w
  /\ pressable Start (console (act Pause t w)) = false.
Proof.
  intros Hw HT Hexp.
  pose proof (pause_synced w r t T Hw HT) as Hp.
  assert (duration r <= (t - T) / 1000) as Hq
    by (apply Z.div_le_lower_bound; lia).
  replace (Z.max 0 (duration r - (t - T) / 1000)) with 0 in Hp by lia.
  split; [exact Hp|]. split.
  - apply (start_refused _ _ t' Hp). simpl. lia.
  - pose proof (render_panel _ _ (proj1 Hp)) as Hr. unfold pressable.
    destruct (Admin.render (console (act Pause t w))); try reflexivity.
    rewrite Hr. reflexivity.
Qed.

Lemma expired_cannot_restart_witness :
  act Start 200000 (act Pause 100000 (world_of running_100 0))
  = act Pause 100000 (world_of running_100 0).
Proof.
  apply (expired_cannot_restart _ running_100 0 100000 200000
           (world_of_synced running_100 0) eq_refl).
  vm_compute. discriminate.
Defined.

(** ** Loading, failing and retrying *)

Lemma fetchTimer_loading (db : Store.t) (a : Admin.State) :
  Admin.loading (snd (Admin.fetchTimer db a)) = false.
Proof.
  unfold Admin.fetchTimer.
  destruct (Store.select_single 1 db) as [r|e]; [reflexivity|].
  destruct (String.eqb (code e) "PGRST116"); [|reflexivity].
  destruct (Store.insert Admin.default_timer db) as [db1 [r|ie]]; reflexivity.
Qed.

(** X15: when the store answers, Retry clears the error and brings the
    control panel on the screen, on the record 1 of the store: when the
    store holds one, Retry leaves the store exactly as it is and loads
    that record; when it holds none, Retry inserts the default record
    under id 1, touching no other record, and loads it.  In both cases
    the record the console ends with is the record 1 the store ends
    with. *)
Theorem retry_recovers (db : Store.t) (a : Admin.State) :
  Store.outage db = None ->
  let a' := snd (Admin.retry db a) in
  Admin.timer a' = Some (default Admin.default_timer (Store.lookup 1 db))
  /\ Admin.error a' = None
  /\ (exists p, Admin.render a' = Admin.Panel p)
  /\ Store.lookup 1 (fst (Admin.retry db a)) = Admin.timer a'
  /\ Store.outage (fst (Admin.retry db a)) = None
  /\ (forall r, Store.lookup 1 db = Some r -> fst (Admin.retry db a) = db)
  /\ (Store.lookup 1 db = None ->
        Store.rows (fst (Admin.retry db a))
        = <[1 := Admin.default_timer]> (Store.rows db)).
Proof.
  intros Ho. simpl. unfold Admin.retry.
  set (a0 := Admin.setLoading true (Admin.setError None a)).
  assert (Admin.timer (snd (Admin.fetchTimer db a0))
          = Some (default Admin.default_timer (Store.lookup 1 db))
          /\ Admin.error (snd (Admin.fetchTimer db a0)) = None) as [Ht He].
  { destruct (Store.lookup 1 db) as [r|] eqn:Hr.
    - rewrite (fetchTimer_present db a0 r Ho Hr). split; reflexivity.
    - rewrite (fetchTimer_absent db a0 Ho Hr). split; reflexivity. }
  split; [exact Ht|]. split; [exact He|].
  split; [unfold Admin.render; rewrite fetchTimer_loading, He, Ht; simpl; eauto|].
  destruct (Store.lookup 1 db) as [r|] eqn:Hr.
  - rewrite (fetchTimer_present db a0 r Ho Hr). simpl.
    split; [exact Hr|]. split; [exact Ho|]. split; [reflexivity | discriminate].
  - rewrite (fetchTimer_absent db a0 Ho Hr). simpl.
    split; [unfold Store.lookup; simpl; apply lookup_insert_eq|].
    split; [reflexivity|]. split; [discriminate | reflexivity].
Qed.

Lemma retry_recovers_witness :
  Admin.timer (snd (Admin.retry empty_store
                      (Admin.setError (Some "Failed to load timer: unavailable"%string)
                         (Admin.init 0))))
  = Some Admin.default_timer
  /\ Store.rows (fst (Admin.retry empty_store
                        (Admin.setError (Some "Failed to load timer: unavailable"%string)
                           (Admin.init 0))))
     = <[1 := Admin.default_timer]> ∅
  /\ fst (Admin.retry (store (world_of running_100 0))
            (Admin.setError (Some "Failed to load timer: unavailable"%string)
               (Admin.init 0)))
     = store (world_of running_100 0).
Proof.
  pose proof (retry_recovers empty_store
                (Admin.setError (Some "Failed to load timer: unavailable"%string)
                   (Admin.init 0)) eq_refl) as (Ht & _ & _ & _ & _ & _ & Hins).
  pose proof (retry_recovers (store (world_of running_100 0))
                (Admin.setError (Some "Failed to load timer: unavailable"%string)
                   (Admin.init 0)) eq_refl) as (_ & _ & _ & _ & _ & Hkeep & _).
  split; [exact Ht|]. split; [exact (Hins eq_refl)|].
  exact (Hkeep running_100 eq_refl).
Defined.

(** X16: [fetchTimer] never clears an error: when an error is on the
    screen, a fetch, successful or not, leaves an error on the screen;
    only Retry removes it. *)
Theorem fetch_keeps_error (db : Store.t) (a : Admin.State) :
  Admin.truthy (Admin.error a) = true ->
  exists msg, Admin.render (snd (Admin.fetchTimer db a)) = Admin.ErrorScreen msg.
Proof.
  intros He.
  assert (Admin.truthy (Admin.error (snd (Admin.fetchTimer db a))) = true) as He'.
  { unfold Admin.fetchTimer.
    destruct (Store.select_single 1 db) as [r|e]; [exact He|].
    destruct (String.eqb (code e) "PGRST116"); [|reflexivity].
    destruct (Store.insert Admin.default_timer db) as [db1 [r|ie]];
      [exact He | reflexivity]. }
  unfold Admin.render. rewrite fetchTimer_loading, He'. eauto.
Qed.

Lemma fetch_keeps_error_witness :
  exists msg,
    Admin.render
      (snd (Admin.fetchTimer (store (world_of running_100 0))
              (Admin.setError (Some "Failed to load timer: unavailable"%string)
                 (Admin.init 0))))
    = Admin.ErrorScreen msg.
Proof.
  apply fetch_keeps_error. reflexivity.
Defined.

(** X17: while the store does not answer, the console's fetch and Retry
    write nothing and end on the error notice. *)
Theorem fetch_during_outage (db : Store.t) (a : Admin.State) (e : PostgrestError) :
  Store.outage db = Some e ->
  fst (Admin.fetchTimer db a) = db
  /\ fst (Admin.retry db a) = db
  /\ (exists msg, Admin.render (snd (Admin.fetchTimer db a)) = Admin.ErrorScreen msg)
  /\ (exists msg, Admin.render (snd (Admin.retry db a)) = Admin.ErrorScreen msg).
Proof.
  intros Ho.
  assert (forall a0, fst (Admin.fetchTimer db a0) = db
                     /\ Admin.truthy (Admin.error (snd (Admin.fetchTimer db a0))) = true) as H.
  { intros a0. unfold Admin.fetchTimer, Store.select_single, Store.insert. rewrite Ho.
    destruct (String.eqb (code e) "PGRST116"); split; reflexivity. }
  assert (forall a0, exists msg,
            Admin.render (snd (Admin.fetchTimer db a0)) = Admin.ErrorScreen msg) as Hr.
  { intros a0. unfold Admin.render. rewrite fetchTimer_loading, (proj2 (H a0)). eauto. }
  split; [apply H|]. split; [apply H|]. split; apply Hr.
Qed.

Lemma fetch_during_outage_witness :
  fst (Admin.fetchTimer
         {| Store.rows := ∅;
            Store.outage := Some {| code := "503"; message := "unavailable" |} |}
         (Admin.init 0))
  = {| Store.rows := ∅;
       Store.outage := Some {| code := "503"; message := "unavailable" |} |}.
Proof.
  exact (proj1 (fetch_during_outage
                  {| Store.rows := ∅;
                     Store.outage := Some {| code := "503"; message := "unavailable" |} |}
                  (Admin.init 0) {| code := "503"; message := "unavailable" |} eq_refl)).
Defined.

(** ** The earlier revision's fetch *)

(** X18: the fetch of the earlier revision never writes to the store and
    keeps its state unless the table holds exactly one row: on an empty
    table it inserts no default record and the page stays on its loading
    notice.  When the table holds record 1 alone, both revisions load
    it. *)
Theorem old_fetch_no_recovery (db : Store.t) (a0 : Admin0.State) (a : Admin.State) :
  fst (Admin0.fetchTimer db a0) = db
  /\ (size (Store.rows db) <> 1%nat -> snd (Admin0.fetchTimer db a0) = a0)
  /\ (Store.rows db = ∅ -> Admin0.timer a0 = None ->
        Admin0.shows_loading (snd (Admin0.fetchTimer db a0)) = true)
  /\ (forall r, Store.rows db = {[ 1 := r ]} -> Store.outage db = None ->
        Admin0.timer (snd (Admin0.fetchTimer db a0)) = Some r
        /\ Admin.timer (snd (Admin.fetchTimer db a)) = Some r).
Proof.
  assert (size (Store.rows db) <> 1%nat -> snd (Admin0.fetchTimer db a0) = a0) as Hsize.
  { intros Hs. unfold Admin0.fetchTimer, Admin0.select_single_any.
    destruct (Store.outage db); [reflexivity|].
    rewrite <- length_map_to_list in Hs.
    destruct (map_to_list (Store.rows db)) as [|[k r] [|p l]]; try reflexivity.
    now destruct Hs. }
  split; [|split; [|split]].
  - unfold Admin0.fetchTimer. now destruct (Admin0.select_single_any db).
  - exact Hsize.
  - intros He Ht. rewrite Hsize; [unfold Admin0.shows_loading; now rewrite Ht|].
    rewrite He, map_size_empty. discriminate.
  - intros r Hr Ho. split.
    + unfold Admin0.fetchTimer, Admin0.select_single_any.
      rewrite Ho, Hr, map_to_list_singleton. reflexivity.
    + rewrite (fetchTimer_present db a r Ho); [reflexivity|].
      unfold Store.lookup. rewrite Hr. apply lookup_singleton_eq.
Qed.

(** ** What the controls never touch *)

Lemma exec_dom (call : option UpdateCall) (db : Store.t) :
  dom (Store.rows (Store.exec call db)) = dom (Store.rows db).
Proof.
  destruct call as [u|]; [|reflexivity]. unfold Store.exec, Store.update.
  destruct (Store.outage db); [reflexivity|]. simpl. apply dom_alter_L.
Qed.

(** X19: no control inserts or deletes a record: whatever the console
    holds, the store has the same ids after an action as before; and
    every record other than the one the console holds is left as it is. *)
Theorem act_keeps_rows (x : Action) (now : Z) (w : World) :
  dom (Store.rows (store (act x now w))) = dom (Store.rows (store w))
  /\ (forall r k, Admin.timer (console w) = Some r -> k <> id r ->
        Store.lookup k (store (act x now w)) = Store.lookup k (store w)).
Proof.
  unfold act. pose proof (request_eq_id x now (console w)) as Hid.
  destruct (request x now (console w)) as [call a]. simpl in *. split.
  - apply exec_dom.
  - intros r k Ht Hk. destruct call as [u|]; [|reflexivity]. simpl.
    apply lookup_update_ne. rewrite (Hid r u Ht eq_refl). exact Hk.
Qed.

(** ** A console that holds a stale copy *)

(** X20: a pause is computed from the copy the console holds and written
    over the record of that id, whatever the store holds by then: the
    duration stored is the one of the console's copy less the time run,
    and a duration another console had set in between is lost. *)
Theorem pause_from_stale_copy (w : World) (t r : StageTimer) (T now : Z) :
  Admin.timer (console w) = Some t ->
  start_time t = Some T ->
  Store.outage (store w) = None ->
  Store.lookup (id t) (store w) = Some r ->
  Store.lookup (id t) (store (act Pause now w))
  = Some {| id := id r;
            duration := Z.max 0 (duration t - (now - T) / 1000);
            start_time := None; status := paused |}.
Proof.
  intros Ht HT Ho Hr. unfold act. simpl.
  rewrite (pause_call _ t now Ht), HT. simpl.
  exact (lookup_update_eq
           {| fields := {| set_status := Some paused; set_start_time := Some None;
                           set_duration := Some (Z.max 0 (duration t - (now - T) / 1000)) |};
              eq_id := id t |} (store w) r Ho Hr).
Qed.

Lemma pause_from_stale_copy_witness :
  Store.lookup 1
    (store (act Pause 30000
              {| store := {| Store.rows :=
                               {[ 1 := {| id := 1; duration := 600; start_time := Some 0;
                                          status := running |} ]};
                             Store.outage := None |};
                 console := console (world_of running_100 0) |}))
  = Some {| id := 1; duration := 70; start_time := None; status := paused |}.
Proof.
  exact (pause_from_stale_copy
           {| store := {| Store.rows :=
                            {[ 1 := {| id := 1; duration := 600; start_time := Some 0;
                                       status := running |} ]};
                          Store.outage := None |};
              console := console (world_of running_100 0) |}
           running_100
           {| id := 1; duration := 600; start_time := Some 0; status := running |}
           0 30000 eq_refl eq_refl eq_refl eq_refl).
Defined.
